(** * A shallow embedding of [app.py], the short-form video generator

    The program is a linear pipeline: narration synthesis, silent base
    video composition, word-timing extraction, subtitle burn-in, final
    mux and cleanup.  This development embeds the functions of [app.py]
    and proves the properties listed for them.

    Conventions.
    - Seconds are rationals ([Q]): every double is a rational, and the
      comparisons of the scan are exact on them.  The timestamp of a frame
      is the double that Python's division gives ([py_float]).
    - The OpenCV drawing calls and the other collaborators (text-to-speech
      service, transcription model, video encoders) are outside [app.py];
      they are parameters of the functions that call them.
    - The file system is a finite map from paths to contents; reading a
      missing file raises, and writing creates or replaces the entry unless
      the path cannot be opened for writing, in which case it raises. *)

From Stdlib Require Import ZArith QArith Qround Lia.
From stdpp Require Import base option list strings pretty gmap.

Local Open Scope Z_scope.
Local Open Scope string_scope.

(** ** Configuration constants ([app.py], lines 11-32) *)

Definition ELEVENLABS_API_KEY : string := "ELEVEN_LABS_API_KEY".
Definition INPUT_TEXT_FILE : string := "script.txt".
Definition INPUT_BACKGROUND_FILE : string := "background.jpg".
Definition OUTPUT_VIDEO_FILE : string := "final_short.mp4".
Definition TEMP_SILENT_VIDEO_FILE : string := "temp_silent_video.mp4".
Definition TEMP_SUBTITLED_VIDEO_FILE : string := "temp_subtitled_video.mp4".

Definition VIDEO_WIDTH : Z := 1080.
Definition VIDEO_HEIGHT : Z := 1920.
Definition FPS : Z := 24.
Definition VOICE_NAME : string := "Jessica".

(** The OpenCV enumerations the program names. *)
Inductive font_face := FONT_HERSHEY_SIMPLEX | FONT_HERSHEY_SCRIPT_COMPLEX.
Inductive line_type := LINE_8 | LINE_AA.

(** A colour is a (blue, green, red) triple. *)
Definition color : Type := Z * Z * Z.

Definition FONT : font_face := FONT_HERSHEY_SCRIPT_COMPLEX.
Definition FONT_SIZE : Q := 5 # 2.
Definition FONT_COLOR : color := (255, 255, 255).
Definition FONT_THICKNESS : Z := 3.
Definition SHADOW_COLOR : color := (0, 0, 0).
Definition SHADOW_THICKNESS : Z := 6.

(** ** Word-timing records and the active-word scan *)

(** One entry of the list built by [get_word_timestamps]:
    [{'word': ..., 'start': ..., 'end': ...}]. *)
Record word_timing := WordTiming {
  word : string;
  start : Q;
  end_ : Q
}.

Definition Qlt_bool (x y : Q) : bool :=
  (Qnum x * QDen y <? Qnum y * QDen x)%Z.

(** Python's [/] on two integers gives the double nearest to the exact
    quotient, ties going to the even significand.  [round_half_even n d]
    is [n / d] rounded that way to a whole number, [binade n d] is the
    exponent [k] with [2^k <= n/d < 2^(k+1)], and [py_float q] is the
    double nearest to [q], kept as a rational: a 53-bit significand times a
    power of two.  The exponent range of doubles is not bounded here;
    timestamps are far inside it. *)
Definition round_half_even (n d : Z) : Z :=
  let q := (n / d)%Z in
  match (2 * (n mod d) ?= d)%Z with
  | Lt => q
  | Gt => (q + 1)%Z
  | Eq => if Z.even q then q else (q + 1)%Z
  end.

Definition binade (n d : Z) : Z :=
  let k := (Z.log2 n - Z.log2 d)%Z in
  if (d * 2 ^ Z.max 0 k <=? n * 2 ^ Z.max 0 (- k))%Z then k else (k - 1)%Z.

Definition py_float (q : Q) : Q :=
  let n := Z.abs (Qnum q) in
  let d := Zpos (Qden q) in
  if (n =? 0)%Z then 0%Q else
  let e := (binade n d - 52)%Z in
  let m := if (0 <=? e)%Z then round_half_even n (d * 2 ^ e)
           else round_half_even (n * 2 ^ (- e)) d in
  let v := if (0 <=? e)%Z then inject_Z (m * 2 ^ e)
           else Qmake m (Z.to_pos (2 ^ (- e))) in
  if (Qnum q <? 0)%Z then Qopp v else v.

(** [current_time = frame_count / FPS] (line 81): a double. *)
Definition current_time (frame_count : nat) : Q :=
  py_float (inject_Z (Z.of_nat frame_count) / inject_Z FPS)%Q.

(** The chained comparison [word['start'] <= current_time < word['end']]
    (line 84). *)
Definition in_interval (t : Q) (w : word_timing) : bool :=
  Qle_bool (start w) t && Qlt_bool t (end_ w).

(** The [for] loop of lines 82-86: [active_word] starts as [None]; the
    first record whose test succeeds assigns its text and breaks. *)
Fixpoint active_word (t : Q) (word_timestamps : list word_timing)
  : option string :=
  match word_timestamps with
  | [] => None
  | w :: rest =>
      if in_interval t w then Some (word w) else active_word t rest
  end.

(** Python truthiness of a string: only the empty string is falsy. *)
Definition truthy (s : string) : bool :=
  match s with
  | EmptyString => false
  | String _ _ => true
  end.

(** ** The drawing interface *)

(** The two OpenCV calls of the renderer.  [getTextSize text font scale
    thickness] returns [((width, height), baseline)]; [putText] returns the
    frame after drawing (OpenCV draws in place on the frame it is given). *)
Class OpenCV (frame : Type) := {
  getTextSize : string -> font_face -> Q -> Z -> (Z * Z) * Z;
  putText : frame -> string -> Z * Z -> font_face -> Q -> color -> Z ->
            line_type -> frame
}.

Section Renderer.
Context {frame : Type} `{OpenCV frame}.

(** Origin of the text, lines 88-90. *)
Definition text_origin (text : string) : Z * Z :=
  let '(text_size, _) := getTextSize text FONT FONT_SIZE FONT_THICKNESS in
  let text_x := (VIDEO_WIDTH - fst text_size) `div` 2 in
  let text_y := (VIDEO_HEIGHT + snd text_size) `div` 2 in
  (text_x, text_y).

(** The outline pass followed by the fill pass, lines 91-92. *)
Definition outline_then_fill (text : string) (f : frame) : frame :=
  let org := text_origin text in
  let shadowed :=
    putText f text org FONT FONT_SIZE SHADOW_COLOR SHADOW_THICKNESS LINE_AA in
  putText shadowed text org FONT FONT_SIZE FONT_COLOR FONT_THICKNESS LINE_AA.

(** [if active_word: ...] (lines 87-92): the guard is the truthiness of
    the value, so both [None] and the empty string skip the drawing. *)
Definition draw_active (active : option string) (f : frame) : frame :=
  match active with
  | Some text => if truthy text then outline_then_fill text f else f
  | None => f
  end.

(** One iteration of the [while] loop, lines 81-93: the frame handed to
    [video_writer.write]. *)
Definition render_frame (word_timestamps : list word_timing)
    (frame_count : nat) (f : frame) : frame :=
  draw_active (active_word (current_time frame_count) word_timestamps) f.

(** The [while] loop, lines 77-94, over the frames that
    [video_capture.read] delivers; [frame_count] starts at 0 and grows by
    one per frame.  The result is the sequence of frames handed to
    [video_writer.write]. *)
Fixpoint render_loop (word_timestamps : list word_timing)
    (frame_count : nat) (frames : list frame) : list frame :=
  match frames with
  | [] => []
  | f :: rest =>
      render_frame word_timestamps frame_count f
      :: render_loop word_timestamps (S frame_count) rest
  end.

End Renderer.

(** A drawing backend for running the renderer: a frame is its base
    picture together with the texts drawn on it, in order.  As in OpenCV,
    a text without characters draws nothing; the text size is a
    fixed-pitch stand-in for the metrics of the font. *)
Record drawn_text := DrawnText {
  dt_text : string;
  dt_org : Z * Z;
  dt_color : color;
  dt_thickness : Z
}.

Record canvas := Canvas {
  base_picture : nat;
  drawn : list drawn_text
}.

#[export] Instance canvas_cv : OpenCV canvas := {|
  getTextSize text _ _ _ := ((40 * Z.of_nat (String.length text), 50), 10);
  putText f text org _ _ c th _ :=
    if truthy text
    then Canvas (base_picture f) (drawn f ++ [DrawnText text org c th])
    else f
|}.

(** ** Geometry of the silent base video ([create_silent_base_video])

    Sizes are whole numbers of pixels and the arithmetic of lines 52-56 is
    done on exact rationals: [target_aspect] is 0.5625, a binary fraction,
    and for picture dimensions the quotients and products of these lines
    are either exact or away from the next whole number, so truncating
    the rational gives what [int] gives on the floating-point value. *)

(** Python's [int] on a number: truncation toward zero. *)
Definition py_int (q : Q) : Z := (Qnum q ÷ Zpos (Qden q))%Z.

(** [target_aspect = VIDEO_WIDTH / VIDEO_HEIGHT] (line 52). *)
Definition target_aspect : Q := (inject_Z VIDEO_WIDTH / inject_Z VIDEO_HEIGHT)%Q.

(** The keyword arguments of the two [crop] calls (lines 54 and 56). *)
Inductive crop_args :=
| CropWidth (x_center : Q) (width : Z)
| CropHeight (y_center : Q) (height : Z).

(** Lines 51-56: which crop is requested for a [w] x [h] picture. *)
Definition choose_crop (w h : Z) : crop_args :=
  if Qlt_bool target_aspect (inject_Z w / inject_Z h)%Q
  then CropWidth (inject_Z w / 2)%Q (py_int (inject_Z h * target_aspect)%Q)
  else CropHeight (inject_Z h / 2)%Q (py_int (inject_Z w / target_aspect)%Q).

(** Length of the slice [a[i:j]] of an axis of length [n], for indices
    that are not negative (the slice is clipped to the axis). *)
Definition slice_len (n i j : Z) : Z := Z.max 0 (Z.min j n - Z.min i n).

(** MoviePy's [crop] on the size of a clip: the region runs from
    [center - extent/2] to [center + extent/2] on the named axis and over
    the whole of the other axis; the picture is sliced at the truncated
    bounds. *)
Definition crop_size (sz : Z * Z) (a : crop_args) : Z * Z :=
  let '(w, h) := sz in
  match a with
  | CropWidth x_center width =>
      let x1 := (x_center - inject_Z width / 2)%Q in
      let x2 := (x_center + inject_Z width / 2)%Q in
      (slice_len w (py_int x1) (py_int x2), h)
  | CropHeight y_center height =>
      let y1 := (y_center - inject_Z height / 2)%Q in
      let y2 := (y_center + inject_Z height / 2)%Q in
      (w, slice_len h (py_int y1) (py_int y2))
  end.

(** MoviePy's [resize(height=H)] on the size of a clip: the width follows
    from the ratio of the clip, [w * H / h], and is truncated to a whole
    number of pixels. *)
Definition resize_height_size (sz : Z * Z) (height : Z) : Z * Z :=
  let '(w, h) := sz in
  (py_int (inject_Z w * inject_Z height / inject_Z h)%Q, height).

(** Lines 51-58: the resolution of the silent base video for a background
    picture of size [w] x [h]. *)
Definition silent_video_size (w h : Z) : Z * Z :=
  resize_height_size (crop_size (w, h) (choose_crop w h)) VIDEO_HEIGHT.

(** ** The pipeline: files, console and process outcome *)

(** Contents of a file: a blob (script text, picture, audio) or a video,
    kept as its resolution (width, height), its frames and its optional
    audio track. *)
Inductive content (frame : Type) :=
| Data (bytes : string)
| Video (resolution : Z * Z) (frames : list frame) (audio : option string).
Arguments Data {frame} bytes.
Arguments Video {frame} resolution frames audio.

(** One request to the text-to-speech service: the key in force, the
    text, the voice and the model. *)
Record tts_request := TtsRequest {
  req_key : option string;
  req_text : string;
  req_voice : string;
  req_model : string
}.

Record world (frame : Type) := World {
  files : gmap string (content frame);
  console : list string;
  api_key : option string;
  tts_log : list tts_request
}.
Arguments World {frame} files console api_key tts_log.
Arguments files {frame} w.
Arguments console {frame} w.
Arguments api_key {frame} w.
Arguments tts_log {frame} w.

(** A Python exception that derives from [Exception], by its message. *)
Definition exn : Type := string.

(** How a call ends: it returns, the process exits ([sys.exit], which
    [except Exception] does not catch), or an exception propagates. *)
Inductive outcome (A : Type) :=
| Returned (a : A)
| Exited (status : Z)
| Raised (e : exn).
Arguments Returned {A} a.
Arguments Exited {A} status.
Arguments Raised {A} e.

Definition M (frame A : Type) : Type := world frame -> outcome A * world frame.

(** The collaborators of the pipeline, outside [app.py]. *)
Class Collaborators (frame : Type) := {
  (** [elevenlabs.generate(text, voice, model)] under the key in force. *)
  generate : option string -> string -> string -> string -> exn + string;
  (** [AudioFileClip(path).duration]. *)
  audio_duration : string -> exn + Q;
  (** [ImageClip(path).size]. *)
  image_size : string -> exn + Z * Z;
  (** The frames [write_videofile] encodes for a still picture, given the
      crop, the target height, the duration and the frame rate. *)
  still_frames : string -> crop_args -> Z -> Q -> Z -> exn + list frame;
  (** [model.transcribe(audio_path, regroup=False)]: segments of
      (word, start, end). *)
  transcribe : string -> exn + list (list word_timing);
  (** [str.strip] followed by [str.upper]. *)
  strip_upper : string -> string;
  (** What opening a path for writing raises, if anything (a missing
      directory, a read-only location). *)
  open_for_writing : string -> option exn
}.

Section Pipeline.
Context {frame : Type} `{OpenCV frame} `{Collaborators frame}.

Definition ret {A : Type} (a : A) : M frame A := fun σ => (Returned a, σ).

Definition bind {A B : Type} (m : M frame A) (k : A -> M frame B)
  : M frame B :=
  fun σ =>
    match m σ with
    | (Returned a, σ') => k a σ'
    | (Exited status, σ') => (Exited status, σ')
    | (Raised e, σ') => (Raised e, σ')
    end.

Notation "x <- m ;; k" := (bind m (fun x => k))
  (at level 100, m at next level, right associativity).
Notation "m ;;; k" := (bind m (fun _ => k))
  (at level 100, right associativity).

Definition raise {A : Type} (e : exn) : M frame A := fun σ => (Raised e, σ).

Definition lift {A : Type} (r : exn + A) : M frame A :=
  match r with
  | inl e => raise e
  | inr a => ret a
  end.

(** [try: body except Exception as e: handler e].  What [body] did before
    it raised stays done; an exit passes through. *)
Definition try_except {A : Type} (body : M frame A) (handler : exn -> M frame A)
  : M frame A :=
  fun σ =>
    match body σ with
    | (Raised e, σ') => handler e σ'
    | r => r
    end.

Definition print (msg : string) : M frame unit :=
  fun σ => (Returned tt,
            World (files σ) (console σ ++ [msg]) (api_key σ) (tts_log σ)).

(** [sys.exit(n)] with an integer status. *)
Definition sys_exit {A : Type} (status : Z) : M frame A :=
  fun σ => (Exited status, σ).

(** [sys.exit(msg)] with a string: the message is printed and the status
    is 1. *)
Definition sys_exit_msg {A : Type} (msg : string) : M frame A :=
  fun σ => (Exited 1,
            World (files σ) (console σ ++ [msg]) (api_key σ) (tts_log σ)).

(** Reading a blob: [open(path).read()] and the loaders of the media
    libraries. *)
Definition read_data (path : string) : M frame string :=
  fun σ =>
    match files σ !! path with
    | Some (Data bytes) => (Returned bytes, σ)
    | Some (Video _ _ _) => (Raised ("cannot decode " ++ path), σ)
    | None => (Raised ("No such file or directory: " ++ path), σ)
    end.

(** Writing a file, as [open(path, "wb")] with [f.write] and as
    [write_videofile] do: the call raises when the path cannot be opened
    for writing, and creates or replaces the file otherwise. *)
Definition write_file (path : string) (c : content frame) : M frame unit :=
  fun σ =>
    match open_for_writing path with
    | Some e => (Raised e, σ)
    | None =>
        (Returned tt,
         World (<[path := c]> (files σ)) (console σ) (api_key σ) (tts_log σ))
    end.

Definition os_path_exists (path : string) : M frame bool :=
  fun σ => (Returned (bool_decide (is_Some (files σ !! path))), σ).

(** [os.remove] raises on a missing path. *)
Definition os_remove (path : string) : M frame unit :=
  fun σ =>
    match files σ !! path with
    | Some _ =>
        (Returned tt,
         World (delete path (files σ)) (console σ) (api_key σ) (tts_log σ))
    | None => (Raised ("No such file or directory: " ++ path), σ)
    end.

(** [set_api_key(key)]. *)
Definition set_api_key (key : string) : M frame unit :=
  fun σ => (Returned tt,
            World (files σ) (console σ) (Some key) (tts_log σ)).

(** [generate(text=..., voice=..., model=...)]: one request to the
    service, under the key in force. *)
Definition elevenlabs_generate (text voice model : string) : M frame string :=
  fun σ =>
    let σ' := World (files σ) (console σ) (api_key σ)
                    (tts_log σ ++ [TtsRequest (api_key σ) text voice model]) in
    match generate (api_key σ) text voice model with
    | inl e => (Raised e, σ')
    | inr audio => (Returned audio, σ')
    end.

(** Lines 36-44.  [key] is the value of the configuration constant
    [ELEVENLABS_API_KEY]. *)
Definition generate_narration (key text output_path : string) : M frame string :=
  print "🎙️ Generating narration..." ;;;
  try_except
    (set_api_key key ;;;
     audio <- elevenlabs_generate text VOICE_NAME "eleven_multilingual_v2" ;;
     write_file output_path (Data audio) ;;;
     ret output_path)
    (fun e =>
       print ("🛑 Error during narration generation: " ++ e) ;;;
       sys_exit 1).

(** Lines 46-61. *)
Definition create_silent_base_video (duration : Q)
    (background_path output_path : string) : M frame unit :=
  print "🎬 Creating silent base video..." ;;;
  picture <- read_data background_path ;;
  sz <- lift (image_size picture) ;;
  (if (snd sz =? 0)%Z then raise "division by zero" else ret tt) ;;;
  frames <- lift (still_frames picture (choose_crop (fst sz) (snd sz))
                    VIDEO_HEIGHT duration FPS) ;;
  write_file output_path
    (Video (silent_video_size (fst sz) (snd sz)) frames None) ;;;
  print "   ✓ Silent base video created successfully.".

(** Lines 63-69. *)
Definition get_word_timestamps (audio_path : string)
  : M frame (list word_timing) :=
  print "✍️ Generating word timestamps..." ;;;
  audio <- read_data audio_path ;;
  segments <- lift (transcribe audio) ;;
  let word_info :=
    flat_map (map (fun w => WordTiming (strip_upper (word w)) (start w) (end_ w)))
             segments in
  print ("   ✓ Found " ++ pretty (length word_info) ++ " words.") ;;;
  ret word_info.

(** [cv2.VideoCapture(path)] and the reads of the loop: the resolution of
    the frames and the frames; a path that is not an openable video
    delivers no frame. *)
Definition video_capture (path : string) : M frame ((Z * Z) * list frame) :=
  fun σ =>
    match files σ !! path with
    | Some (Video resolution frames _) => (Returned (resolution, frames), σ)
    | _ => (Returned ((0, 0)%Z, []), σ)
    end.

(** The [cv2.VideoWriter] of line 75, opened at
    [(VIDEO_WIDTH, VIDEO_HEIGHT)]: [write] keeps a frame of that size and
    silently drops a frame of any other size.  The frames of one video all
    have its resolution. *)
Definition writer_keeps (resolution : Z * Z) (frames : list frame)
  : list frame :=
  if bool_decide (resolution = (VIDEO_WIDTH, VIDEO_HEIGHT)) then frames else [].

Definition video_writer_release (path : string) (frames : list frame)
  : M frame unit :=
  fun σ =>
    (Returned tt,
     World (<[path := Video (VIDEO_WIDTH, VIDEO_HEIGHT) frames None]> (files σ))
           (console σ) (api_key σ) (tts_log σ)).

(** Lines 71-98. *)
Definition draw_subtitles_on_video (input_video output_video : string)
    (word_timestamps : list word_timing) : M frame unit :=
  print "✏️ Drawing subtitles onto video using OpenCV..." ;;;
  capture <- video_capture input_video ;;
  video_writer_release output_video
    (writer_keeps (fst capture)
       (render_loop word_timestamps 0 (snd capture))) ;;;
  print "   ✓ Subtitles drawn successfully.".

(** [VideoFileClip(path)]: opening reads the first frame, so a video
    without frames raises. *)
Definition video_file_clip (path : string) : M frame ((Z * Z) * list frame) :=
  fun σ =>
    match files σ !! path with
    | Some (Video resolution (f :: frames) _) =>
        (Returned (resolution, f :: frames), σ)
    | Some (Video _ [] _) => (Raised ("failed to read the first frame of " ++ path), σ)
    | Some (Data _) => (Raised ("cannot decode " ++ path), σ)
    | None => (Raised ("No such file or directory: " ++ path), σ)
    end.

(** [AudioFileClip(path)]: the audio and its duration. *)
Definition audio_file_clip (path : string) : M frame (string * Q) :=
  audio <- read_data path ;;
  duration <- lift (audio_duration audio) ;;
  ret (audio, duration).

(** [if os.path.exists(p): os.remove(p)] (lines 128-130). *)
Definition remove_if_exists (path : string) : M frame unit :=
  present <- os_path_exists path ;;
  if present then os_remove path else ret tt.

(** Step 6 of [main], lines 127-130. *)
Definition cleanup (narration_audio_path : string) : M frame unit :=
  print "🧹 Cleaning up temporary files..." ;;;
  remove_if_exists narration_audio_path ;;;
  remove_if_exists TEMP_SILENT_VIDEO_FILE ;;;
  remove_if_exists TEMP_SUBTITLED_VIDEO_FILE.

(** The guard of line 102. *)
Definition api_key_guard (key : string) : bool :=
  String.eqb key "YOUR_ELEVENLABS_API_KEY".

(** Lines 100-132.  [key] is the value of the configuration constant
    [ELEVENLABS_API_KEY]; returning corresponds to exit status 0. *)
Definition main (key : string) : M frame unit :=
  print "--- 🎬 Starting YouTube Shorts Generator (OpenCV Edition) ---" ;;;
  (if api_key_guard key then sys_exit_msg "🛑 Set API Key" else ret tt) ;;;
  script_text <- read_data INPUT_TEXT_FILE ;;
  narration_audio_path <- generate_narration key script_text "narration.mp3" ;;
  narration <- audio_file_clip narration_audio_path ;;
  create_silent_base_video (snd narration) INPUT_BACKGROUND_FILE
    TEMP_SILENT_VIDEO_FILE ;;;
  word_timestamps <- get_word_timestamps narration_audio_path ;;
  draw_subtitles_on_video TEMP_SILENT_VIDEO_FILE TEMP_SUBTITLED_VIDEO_FILE
    word_timestamps ;;;
  print "🔊 Combining final video and audio..." ;;;
  subtitled_clip <- video_file_clip TEMP_SUBTITLED_VIDEO_FILE ;;
  original_audio <- audio_file_clip narration_audio_path ;;
  write_file OUTPUT_VIDEO_FILE
    (Video (fst subtitled_clip) (snd subtitled_clip)
       (Some (fst original_audio))) ;;;
  print "   ✓ Final video and audio combined successfully." ;;;
  cleanup narration_audio_path ;;;
  print ("
--- ✅ VICTORY AT LAST! Your video is ready: " ++ OUTPUT_VIDEO_FILE ++ " ---").


End Pipeline.

(** ** Relations between the world before and after a call *)

Section WorldRelations.
Context {frame : Type}.

(** Every run of [m], however it ends, takes a world to one related by
    [R]. *)
Definition respects {A : Type} (R : world frame -> world frame -> Prop)
    (m : M frame A) : Prop :=
  forall σ o σ', m σ = (o, σ') -> R σ σ'.

(** The paths the pipeline writes: the narration, the two intermediate
    videos and the final video. *)
Definition pipeline_path (p : string) : Prop :=
  p = "narration.mp3" \/ p = TEMP_SILENT_VIDEO_FILE \/
  p = TEMP_SUBTITLED_VIDEO_FILE \/ p = OUTPUT_VIDEO_FILE.

(** Files outside the pipeline's own paths are as they were. *)
Definition others_untouched (σ σ' : world frame) : Prop :=
  forall p, ~ pipeline_path p -> files σ' !! p = files σ !! p.

(** No file has disappeared. *)
Definition nothing_removed (σ σ' : world frame) : Prop :=
  forall p, is_Some (files σ !! p) -> is_Some (files σ' !! p).

(** No request was sent to the text-to-speech service. *)
Definition no_request (σ σ' : world frame) : Prop :=
  tts_log σ' = tts_log σ.

(** Neither the files nor the log of requests changed. *)
Definition read_only (σ σ' : world frame) : Prop :=
  files σ' = files σ /\ tts_log σ' = tts_log σ.

(** A step that may write its own pipeline path and does nothing else to
    the files or to the log of requests. *)
Definition writes_own_path (σ σ' : world frame) : Prop :=
  others_untouched σ σ' /\ nothing_removed σ σ' /\ no_request σ σ'.

(** Every run of [m] that does not return takes a world to one related
    by [R]. *)
Definition respects_on_failure {A : Type}
    (R : world frame -> world frame -> Prop) (m : M frame A) : Prop :=
  forall σ o σ', m σ = (o, σ') -> (forall a, o <> Returned a) -> R σ σ'.

End WorldRelations.

(** ** A concrete set of collaborators, for running the pipeline *)

Definition demo_frames : list canvas :=
  map (fun n => Canvas n []) (seq 0 4).

#[export] Instance demo_collaborators : Collaborators canvas := {|
  generate key text voice model :=
    if bool_decide (key = Some "sk_live_demo")
    then inr ("mp3:" ++ text)
    else inl "invalid_api_key";
  audio_duration audio := inr (2 # 1);
  image_size picture := inr (1080, 1920);
  still_frames picture crop height duration fps := inr demo_frames;
  transcribe audio :=
    inr [[WordTiming "hello" 0 (1 # 8); WordTiming "world" (1 # 8) 2]];
  strip_upper s := s;
  open_for_writing path :=
    if bool_decide (path = "nodir/narration.mp3")
    then Some "No such file or directory: nodir/narration.mp3"
    else None
|}.

(** The same collaborators with a transcription model that fails. *)
Definition mute_collaborators : Collaborators canvas := {|
  generate := generate (Collaborators := demo_collaborators);
  audio_duration := audio_duration (Collaborators := demo_collaborators);
  image_size := image_size (Collaborators := demo_collaborators);
  still_frames := still_frames (Collaborators := demo_collaborators);
  transcribe audio := inl "model not available";
  strip_upper := strip_upper (Collaborators := demo_collaborators);
  open_for_writing := open_for_writing (Collaborators := demo_collaborators)
|}.


Definition demo_world : world canvas :=
  World (<[INPUT_TEXT_FILE := Data "hello world"]>
           (<[INPUT_BACKGROUND_FILE := Data "jpeg"]> ∅)) [] None [].

Local Open Scope list_scope.

(** ** Concrete sequences and worlds *)

(** The scenario of the specification: HELLO on [0, 1), WORLD on [1, 2),
    24 frames per second. *)
Definition hello_world : list word_timing :=
  [WordTiming "HELLO" 0 1; WordTiming "WORLD" 1 2].


Definition silent_word : list word_timing :=
  [WordTiming "" 0 1; WordTiming "LATER" 0 1].

Definition silent_world : world canvas :=
  World (<[TEMP_SILENT_VIDEO_FILE := Video (VIDEO_WIDTH, VIDEO_HEIGHT) demo_frames None]> ∅) [] None [].

Definition noisy_world : world canvas :=
  World (<[TEMP_SILENT_VIDEO_FILE := Video (VIDEO_WIDTH, VIDEO_HEIGHT) demo_frames None]>
           (<["notes.txt" := Data "unrelated"]> ∅))
        ["earlier output"] (Some "sk_live_demo") [].

(** "t lies inside exactly one interval of the sequence": the record at
    position [k] contains [t] and no record at another position does. *)
Definition sole_match (t : Q) (ws : list word_timing) (k : nat)
    (r : word_timing) : Prop :=
  ws !! k = Some r /\ (start r <= t)%Q /\ (t < end_ r)%Q /\
  forall j r', ws !! j = Some r' -> (start r' <= t)%Q -> (t < end_ r')%Q -> j = k.

(** "r is the earliest record of the sequence that contains t". *)
Definition first_match (t : Q) (ws : list word_timing) (r : word_timing)
    (pre post : list word_timing) : Prop :=
  ws = pre ++ r :: post /\
  (forall r', r' ∈ pre -> ~ ((start r' <= t)%Q /\ (t < end_ r')%Q)) /\
  (start r <= t)%Q /\ (t < end_ r)%Q.

(** The shape the transcription is expected to have: every interval is
    well formed and ends before any later record starts. *)
Fixpoint ordered_intervals (ws : list word_timing) : Prop :=
  match ws with
  | [] => True
  | r :: rest =>
      (start r <= end_ r)%Q /\
      (forall r', r' ∈ rest -> (end_ r <= start r')%Q) /\
      ordered_intervals rest
  end.

(** * Properties of the active-word scan *)

Lemma Qlt_bool_iff (x y : Q) : Qlt_bool x y = true <-> (x < y)%Q.
Proof. unfold Qlt_bool, Qlt. apply Z.ltb_lt. Qed.

Lemma in_interval_spec (t : Q) (w : word_timing) :
  in_interval t w = true <-> ((start w <= t)%Q /\ (t < end_ w)%Q).
Proof.
  unfold in_interval.
  rewrite andb_true_iff, Qle_bool_iff, Qlt_bool_iff. reflexivity.
Qed.

Lemma in_interval_false (t : Q) (w : word_timing) :
  in_interval t w = false <-> ~ ((start w <= t)%Q /\ (t < end_ w)%Q).
Proof.
  rewrite <- in_interval_spec. destruct (in_interval t w); split; intros;
    congruence || tauto.
Qed.

Lemma active_word_app_miss (t : Q) (pre rest : list word_timing) :
  (forall r', r' ∈ pre -> ~ ((start r' <= t)%Q /\ (t < end_ r')%Q)) ->
  active_word t (pre ++ rest) = active_word t rest.
Proof.
  induction pre as [|w pre IH]; intros Hpre; simpl; [reflexivity|].
  assert (Hw : in_interval t w = false).
  { apply in_interval_false, Hpre. left. }
  rewrite Hw. apply IH. intros r' Hr'. apply Hpre. right. exact Hr'.
Qed.

Lemma active_word_none (t : Q) (ws : list word_timing) :
  (forall r, r ∈ ws -> ~ ((start r <= t)%Q /\ (t < end_ r)%Q)) ->
  active_word t ws = None.
Proof.
  intros Hws. rewrite <- (app_nil_r ws).
  rewrite active_word_app_miss by exact Hws. reflexivity.
Qed.

Lemma active_word_first (t : Q) (ws : list word_timing) (r : word_timing)
    (pre post : list word_timing) :
  first_match t ws r pre post -> active_word t ws = Some (word r).
Proof.
  intros (-> & Hpre & Hs & He).
  rewrite active_word_app_miss by exact Hpre. simpl.
  assert (Hr : in_interval t r = true) by (apply in_interval_spec; auto).
  rewrite Hr. reflexivity.
Qed.

Lemma sole_match_first (t : Q) (ws : list word_timing) (k : nat)
    (r : word_timing) :
  sole_match t ws k r -> first_match t ws r (take k ws) (drop (S k) ws).
Proof.
  intros (Hk & Hs & He & Huniq). repeat split; auto.
  - symmetry. apply take_drop_middle. exact Hk.
  - intros r' Hr' [Hs' He'].
    apply list_elem_of_lookup in Hr' as [j Hj].
    pose proof (lookup_lt_Some _ _ _ Hj) as Hlt.
    rewrite length_take in Hlt.
    rewrite lookup_take_lt in Hj by lia.
    specialize (Huniq j r' Hj Hs' He'). lia.
Qed.

Lemma truthy_nonempty (s : string) : truthy s = true <-> s <> "".
Proof. destruct s; simpl; split; intros; congruence. Qed.

(** * Subtitle rendering *)

Section RendererFacts.
Context {frame : Type} `{OpenCV frame}.

Lemma render_frame_first (ws : list word_timing) (i : nat) (r : word_timing)
    (pre post : list word_timing) (f : frame) :
  first_match (current_time i) ws r pre post ->
  render_frame ws i f = draw_active (Some (word r)) f.
Proof.
  intros Hfirst. unfold render_frame.
  rewrite (active_word_first _ _ _ _ _ Hfirst). reflexivity.
Qed.

Lemma render_loop_nil_words (n : nat) (frames : list frame) :
  render_loop [] n frames = frames.
Proof.
  revert n. induction frames as [|f frames IH]; intros n; simpl.
  - reflexivity.
  - rewrite IH. reflexivity.
Qed.




(** C3: a frame whose timestamp lies outside every interval of the
    sequence is written unmodified; with the empty sequence the written
    frames are the frames read. *)
Theorem C3_outside_unmodified (ws : list word_timing) (i : nat) (f : frame) :
  ((forall r, r ∈ ws ->
      ~ ((start r <= current_time i)%Q /\ (current_time i < end_ r)%Q)) ->
   render_frame ws i f = f) /\
  (forall frames : list frame, render_loop [] 0 frames = frames).
Proof.
  split.
  - intros Hout. unfold render_frame.
    rewrite (active_word_none _ _ Hout). reflexivity.
  - intros frames. apply render_loop_nil_words.
Qed.

(** C4: a record with [start == end] contains no timestamp, so the scan
    never selects it: with the record taken out of the sequence the scan
    and the written frame are the same, for every frame. *)
Theorem C4_empty_interval_never_active (r : word_timing) :
  (start r == end_ r)%Q ->
  (forall t, in_interval t r = false) /\
  (forall t pre post,
      active_word t (pre ++ r :: post) = active_word t (pre ++ post)) /\
  (forall pre post i (f : frame),
      render_frame (pre ++ r :: post) i f = render_frame (pre ++ post) i f).
Proof.
  intros Heq.
  assert (Hnever : forall t, in_interval t r = false).
  { intros t. apply in_interval_false. intros [Hs He].
    apply (Qlt_irrefl (end_ r)). rewrite <- Heq at 1.
    eapply Qle_lt_trans; eassumption. }
  assert (Hscan : forall t pre post,
             active_word t (pre ++ r :: post) = active_word t (pre ++ post)).
  { intros t pre post. induction pre as [|w pre IH]; simpl.
    - rewrite Hnever. reflexivity.
    - rewrite IH. reflexivity. }
  repeat split; auto.
  intros pre post i f. unfold render_frame. rewrite Hscan. reflexivity.
Qed.

(** C9: when the earliest record containing the timestamp of frame [i] has
    the empty string as its word, the scan does return a value (the empty
    string, not [None]), no text is drawn and the frame is written
    unmodified. *)
Theorem C9_empty_word_unmodified (ws pre post : list word_timing)
    (r : word_timing) (i : nat) (f : frame) :
  first_match (current_time i) ws r pre post ->
  word r = "" ->
  active_word (current_time i) ws = Some "" /\
  render_frame ws i f = f.
Proof.
  intros Hfirst Hw. split.
  - rewrite (active_word_first _ _ _ _ _ Hfirst), Hw. reflexivity.
  - rewrite (render_frame_first _ _ _ _ _ f Hfirst), Hw. reflexivity.
Qed.


End RendererFacts.

(** ** The renderer on concrete sequences *)

Ltac decide_times :=
  repeat match goal with
         | |- _ /\ _ => split
         | |- (_ <= _)%Q => apply Qle_bool_iff; vm_compute; reflexivity
         | |- (_ < _)%Q => apply Qlt_bool_iff; vm_compute; reflexivity
         | |- (_ == _)%Q => apply Qeq_bool_iff; vm_compute; reflexivity
         | |- _ = _ => reflexivity
         end.

Ltac refute_time H :=
  first [ apply Qlt_bool_iff in H | apply Qle_bool_iff in H ];
  vm_compute in H; discriminate H.

(** The timestamp of a frame is a double: that of frame 30 is exactly
    5/4, that of frame 5 lies just above 5/24, so a record that starts at
    that double is already active on frame 5. *)
Example current_time_30 : (current_time 30 == 5 # 4)%Q.
Proof. reflexivity. Qed.

Example current_time_5_above : (5 # 24 < current_time 5)%Q.
Proof. reflexivity. Qed.

Example boundary_frame_5 :
  active_word (current_time 5) [WordTiming "NOW" (current_time 5) 1]
    = Some "NOW".
Proof. vm_compute. reflexivity. Qed.

Example hello_world_frame_23 :
  active_word (current_time 23) hello_world = Some "HELLO".
Proof. reflexivity. Qed.

Example hello_world_frame_24 :
  active_word (current_time 24) hello_world = Some "WORLD".
Proof. reflexivity. Qed.

Example hello_world_frame_48 :
  active_word (current_time 48) hello_world = None.
Proof. reflexivity. Qed.




Lemma C3_outside_unmodified_witness :
  (forall r, r ∈ hello_world ->
     ~ ((start r <= current_time 48)%Q /\ (current_time 48 < end_ r)%Q)) /\
  render_frame hello_world 48 (Canvas 7 []) = Canvas 7 [] /\
  render_loop [] 0 demo_frames = demo_frames.
Proof.
  assert (Hout : forall r, r ∈ hello_world ->
     ~ ((start r <= current_time 48)%Q /\ (current_time 48 < end_ r)%Q)).
  { intros r Hr [_ He]. unfold hello_world in Hr.
    apply elem_of_cons in Hr as [->|Hr]; [refute_time He|].
    apply list_elem_of_singleton in Hr as ->. refute_time He. }
  destruct (C3_outside_unmodified hello_world 48 (Canvas 7 [])) as [Hframe Hnil].
  split; [exact Hout|]. split; [exact (Hframe Hout)|exact (Hnil demo_frames)].
Defined.

Lemma C4_empty_interval_never_active_witness :
  (start (WordTiming "NOW" 1 1) == end_ (WordTiming "NOW" 1 1))%Q /\
  active_word (current_time 24)
    ([WordTiming "HELLO" 0 1] ++ WordTiming "NOW" 1 1 :: [WordTiming "WORLD" 1 2])
  = active_word (current_time 24) hello_world.
Proof.
  assert (Heq : (start (WordTiming "NOW" 1 1) == end_ (WordTiming "NOW" 1 1))%Q)
    by decide_times.
  split; [exact Heq|].
  destruct (C4_empty_interval_never_active (frame := canvas)
              (WordTiming "NOW" 1 1) Heq) as (_ & Hscan & _).
  exact (Hscan (current_time 24) [WordTiming "HELLO" 0 1] [WordTiming "WORLD" 1 2]).
Defined.


Example overlapping_second_also_matches :
  in_interval (current_time 36) (WordTiming "SECOND" 1 2) = true.
Proof. reflexivity. Qed.


Lemma silent_word_first_0 :
  first_match (current_time 0) silent_word (WordTiming "" 0 1)
    [] [WordTiming "LATER" 0 1].
Proof.
  unfold first_match. decide_times.
  intros r' Hr'. apply elem_of_nil in Hr'. destruct Hr'.
Defined.

Lemma C9_empty_word_unmodified_witness :
  first_match (current_time 0) silent_word (WordTiming "" 0 1)
    [] [WordTiming "LATER" 0 1] /\
  word (WordTiming "" 0 1) = "" /\
  active_word (current_time 0) silent_word = Some "" /\
  render_frame silent_word 0 (Canvas 7 []) = Canvas 7 [].
Proof.
  split; [exact silent_word_first_0|]. split; [reflexivity|].
  exact (C9_empty_word_unmodified silent_word _ _ (WordTiming "" 0 1) 0
           (Canvas 7 []) silent_word_first_0 eq_refl).
Defined.

(** * Geometry of the silent base video *)

Section Geometry.
Local Open Scope Z_scope.

(** The branch of lines 53-56 in integer terms: the width-based crop is
    chosen exactly when [w/h] exceeds [VIDEO_WIDTH/VIDEO_HEIGHT]. *)
Lemma choose_crop_spec (w h : Z) :
  0 < h ->
  choose_crop w h =
    if VIDEO_WIDTH * h <? VIDEO_HEIGHT * w
    then CropWidth (inject_Z w / 2)%Q ((h * VIDEO_WIDTH) ÷ VIDEO_HEIGHT)
    else CropHeight (inject_Z h / 2)%Q ((w * VIDEO_HEIGHT) ÷ VIDEO_WIDTH).
Proof.
  intros Hh. destruct h as [|p|p]; try lia.
  unfold choose_crop, Qlt_bool, target_aspect, VIDEO_WIDTH, VIDEO_HEIGHT, py_int.
  simpl.
  rewrite ?Pos.mul_1_l, ?Pos.mul_1_r, ?Z.mul_1_r, (Z.mul_comm w 1920).
  reflexivity.
Qed.

Lemma crop_size_width (w h width : Z) :
  crop_size (w, h) (CropWidth (inject_Z w / 2)%Q width) =
    (slice_len w ((w * 2 - width * 2) ÷ 4) ((w * 2 + width * 2) ÷ 4), h).
Proof.
  unfold crop_size, py_int. simpl.
  change (Z.pos (1 * 2)) with 2. change (Z.pos (1 * 2 * (1 * 2))) with 4.
  rewrite !Z.mul_1_r.
  replace (w * 2 + - width * 2) with (w * 2 - width * 2) by lia.
  reflexivity.
Qed.

Lemma crop_size_height (w h height : Z) :
  crop_size (w, h) (CropHeight (inject_Z h / 2)%Q height) =
    (w, slice_len h ((h * 2 - height * 2) ÷ 4) ((h * 2 + height * 2) ÷ 4)).
Proof.
  unfold crop_size, py_int. simpl.
  change (Z.pos (1 * 2)) with 2. change (Z.pos (1 * 2 * (1 * 2))) with 4.
  rewrite !Z.mul_1_r.
  replace (h * 2 + - height * 2) with (h * 2 - height * 2) by lia.
  reflexivity.
Qed.

(** A centred slice of extent [e] out of an axis of length [n]. *)
Lemma centred_slice_len (n e : Z) :
  0 <= e <= n ->
  slice_len n ((n * 2 - e * 2) ÷ 4) ((n * 2 + e * 2) ÷ 4) = e.
Proof.
  intros He. unfold slice_len.
  rewrite !Z.quot_div_nonneg by lia.
  replace (n * 2 + e * 2) with ((n * 2 - e * 2) + e * 4) by lia.
  rewrite Z.div_add by lia.
  assert (H0 : 0 <= (n * 2 - e * 2) / 4) by (apply Z.div_pos; lia).
  assert (H1 : (n * 2 - e * 2) / 4 <= n - e).
  { apply Z.div_le_upper_bound; lia. }
  lia.
Qed.

Lemma resize_height_size_spec (w h height : Z) :
  0 < h ->
  resize_height_size (w, h) height = ((w * height) ÷ h, height).
Proof.
  intros Hh. destruct h as [|p|p]; try lia.
  unfold resize_height_size, py_int. simpl.
  rewrite ?Pos.mul_1_l, ?Pos.mul_1_r, ?Z.mul_1_r. reflexivity.
Qed.

(** The resolution of the silent base video in closed form. *)
Lemma silent_video_size_formula (w h : Z) :
  0 < w -> 0 < h ->
  silent_video_size w h =
    if VIDEO_WIDTH * h <? VIDEO_HEIGHT * w
    then (((h * VIDEO_WIDTH) ÷ VIDEO_HEIGHT * VIDEO_HEIGHT) ÷ h, VIDEO_HEIGHT)
    else ((w * VIDEO_HEIGHT) ÷ ((w * VIDEO_HEIGHT) ÷ VIDEO_WIDTH), VIDEO_HEIGHT).
Proof.
  intros Hw Hh. unfold silent_video_size.
  rewrite choose_crop_spec by lia.
  unfold VIDEO_WIDTH, VIDEO_HEIGHT.
  destruct (1080 * h <? 1920 * w) eqn:Hwide.
  - apply Z.ltb_lt in Hwide.
    rewrite crop_size_width, centred_slice_len.
    + apply resize_height_size_spec. lia.
    + rewrite Z.quot_div_nonneg by lia. split.
      * apply Z.div_pos; lia.
      * apply Z.div_le_upper_bound; lia.
  - apply Z.ltb_ge in Hwide.
    rewrite crop_size_height, centred_slice_len.
    + apply resize_height_size_spec.
      rewrite Z.quot_div_nonneg by lia.
      apply Z.div_str_pos. lia.
    + rewrite Z.quot_div_nonneg by lia. split.
      * apply Z.div_pos; lia.
      * apply Z.div_le_upper_bound; lia.
Qed.

(** The height is always the target height. *)
Lemma silent_video_height (w h : Z) :
  snd (silent_video_size w h) = VIDEO_HEIGHT.
Proof.
  unfold silent_video_size, resize_height_size.
  destruct (crop_size (w, h) (choose_crop w h)). reflexivity.
Qed.

(** For a picture wider than the target ratio the width of the result
    never exceeds the target and reaches it exactly when the height of the
    picture is a multiple of 16 (so that 9/16 of it is a whole number). *)
Lemma silent_video_width_wide (w h : Z) :
  0 < w -> 0 < h -> VIDEO_WIDTH * h < VIDEO_HEIGHT * w ->
  fst (silent_video_size w h) <= VIDEO_WIDTH /\
  (fst (silent_video_size w h) = VIDEO_WIDTH <-> (16 | h)).
Proof.
  intros Hw Hh Hwide. rewrite silent_video_size_formula by lia.
  apply Z.ltb_lt in Hwide. rewrite Hwide. simpl fst.
  unfold VIDEO_WIDTH, VIDEO_HEIGHT in *.
  rewrite (Z.quot_div_nonneg (h * 1080) 1920) by lia.
  pose proof (Z.div_mod (h * 1080) 1920 ltac:(lia)) as Hdm.
  pose proof (Z.mod_pos_bound (h * 1080) 1920 ltac:(lia)) as Hr.
  assert (Hq : 0 <= h * 1080 / 1920) by (apply Z.div_pos; lia).
  set (q := h * 1080 / 1920) in *. set (r := (h * 1080) mod 1920) in *.
  rewrite Z.quot_div_nonneg by lia.
  split; [apply Z.div_le_upper_bound; lia|]. split.
  - intros Hexact.
    pose proof (Z.mul_div_le (q * 1920) h Hh) as Hle.
    exists (9 * q - 5 * h). lia.
  - intros [m Hm].
    assert (Hqm : q = 9 * m).
    { subst q. rewrite Hm.
      replace (m * 16 * 1080) with (9 * m * 1920) by lia.
      apply Z.div_mul. lia. }
    rewrite Hqm, Hm.
    replace (9 * m * 1920) with (1080 * (m * 16)) by lia.
    apply Z.div_mul. lia.
Qed.

(** For the other pictures the width of the result is at least the target
    and equals it when the width of the picture is a multiple of 9. *)
Lemma silent_video_width_tall (w h : Z) :
  0 < w -> 0 < h -> VIDEO_HEIGHT * w <= VIDEO_WIDTH * h ->
  VIDEO_WIDTH <= fst (silent_video_size w h) /\
  ((9 | w) -> fst (silent_video_size w h) = VIDEO_WIDTH).
Proof.
  intros Hw Hh Htall. rewrite silent_video_size_formula by lia.
  apply Z.ltb_ge in Htall. rewrite Htall. simpl fst.
  unfold VIDEO_WIDTH, VIDEO_HEIGHT in *.
  rewrite (Z.quot_div_nonneg (w * 1920) 1080) by lia.
  pose proof (Z.mul_div_le (w * 1920) 1080 ltac:(lia)) as Hle.
  assert (Hq : 0 < w * 1920 / 1080) by (apply Z.div_str_pos; lia).
  set (q := w * 1920 / 1080) in *.
  rewrite Z.quot_div_nonneg by lia.
  split; [apply Z.div_le_lower_bound; lia|].
  intros [m Hm].
  assert (Hqm : q = 16 * m).
  { subst q. rewrite Hm.
    replace (m * 9 * 1920) with (16 * m * 1080) by lia.
    apply Z.div_mul. lia. }
  rewrite Hqm, Hm.
  replace (m * 9 * 1920) with (1080 * (16 * m)) by lia.
  apply Z.div_mul. lia.
Qed.

(** C5: the crop is width-based for a picture wider than the target ratio
    and the result has the target height, but the width misses the target:
    a 1920 x 1080 picture is cropped to 607 columns (607.5 truncated) and
    resized to 1079 x 1920, and an 800 x 600 picture ends at 1078 x 1920. *)
Theorem C5_width_truncation_misses_target :
  choose_crop 1920 1080 = CropWidth (1920 # 2) 607 /\
  crop_size (1920, 1080) (choose_crop 1920 1080) = (607, 1080) /\
  silent_video_size 1920 1080 = (1079, VIDEO_HEIGHT) /\
  silent_video_size 800 600 = (1078, VIDEO_HEIGHT) /\
  fst (silent_video_size 1920 1080) <> VIDEO_WIDTH.
Proof. repeat split; vm_compute; congruence. Qed.

Example silent_video_size_portrait :
  silent_video_size 1080 1920 = (VIDEO_WIDTH, VIDEO_HEIGHT).
Proof. reflexivity. Qed.

Example silent_video_size_720p :
  silent_video_size 1280 720 = (VIDEO_WIDTH, VIDEO_HEIGHT).
Proof. reflexivity. Qed.

End Geometry.

(** * The pipeline *)

Section PipelineFacts.
Context {frame : Type} `{OpenCV frame} `{Collaborators frame}.


Lemma bind_returned_inv {A B : Type} (m : M frame A) (k : A -> M frame B)
    (σ σ' : world frame) (b : B) :
  bind m k σ = (Returned b, σ') ->
  exists a σ1, m σ = (Returned a, σ1) /\ k a σ1 = (Returned b, σ').
Proof.
  unfold bind. destruct (m σ) as [[a|status|e] σ1]; intros Hk;
    [eauto | discriminate | discriminate].
Qed.


(** The guarded removal always returns, and the files afterwards are the
    files before without the path. *)
Lemma remove_if_exists_spec (path : string) (σ : world frame) :
  remove_if_exists path σ =
    (Returned tt,
     World (delete path (files σ)) (console σ) (api_key σ) (tts_log σ)).
Proof.
  unfold remove_if_exists, bind, os_path_exists, os_remove.
  destruct (files σ !! path) as [c|] eqn:Hlook.
  - rewrite bool_decide_eq_true_2 by eauto. rewrite Hlook. reflexivity.
  - rewrite bool_decide_eq_false_2 by (intros [c Hc]; discriminate).
    rewrite delete_id by exact Hlook. destruct σ; reflexivity.
Qed.

Lemma remove_if_exists_missing (path : string) (σ : world frame) :
  files σ !! path = None -> remove_if_exists path σ = (Returned tt, σ).
Proof.
  intros Hlook. rewrite remove_if_exists_spec, delete_id by exact Hlook.
  destruct σ; reflexivity.
Qed.

Lemma cleanup_spec (narration_audio_path : string) (σ : world frame) :
  exists σ',
    cleanup narration_audio_path σ = (Returned tt, σ') /\
    files σ' =
      delete TEMP_SUBTITLED_VIDEO_FILE
        (delete TEMP_SILENT_VIDEO_FILE
           (delete narration_audio_path (files σ))).
Proof.
  unfold cleanup. eexists. split.
  - unfold bind at 1. unfold print at 1.
    unfold bind at 1. rewrite remove_if_exists_spec.
    unfold bind at 1. rewrite remove_if_exists_spec.
    rewrite remove_if_exists_spec. reflexivity.
  - reflexivity.
Qed.


Lemma generate_narration_returns_path (key text output_path : string)
    (σ σ' : world frame) (p : string) :
  generate_narration key text output_path σ = (Returned p, σ') ->
  p = output_path.
Proof.
  unfold generate_narration, bind, try_except, print, set_api_key,
    elevenlabs_generate, write_file, ret, sys_exit. simpl.
  destruct (generate (Some key) text VOICE_NAME "eleven_multilingual_v2");
    simpl; [intros Hrun; congruence|].
  destruct (open_for_writing output_path); simpl; intros Hrun; congruence.
Qed.

(** C7: each guarded removal of the cleanup step returns without raising,
    deletes the file when it exists and changes nothing when it does not;
    the cleanup step as a whole returns and removes the narration audio, the
    silent video and the subtitled video; when [main] returns, the three
    temporary files are absent and the final output file is present. *)
Theorem C7_cleanup (key : string) (σ : world frame) :
  (forall path,
      exists σ1,
        remove_if_exists path σ = (Returned tt, σ1) /\
        files σ1 !! path = None /\
        (forall other, other <> path -> files σ1 !! other = files σ !! other) /\
        (files σ !! path = None -> σ1 = σ)) /\
  (forall narration_audio_path,
      exists σ1,
        cleanup narration_audio_path σ = (Returned tt, σ1) /\
        files σ1 =
          delete TEMP_SUBTITLED_VIDEO_FILE
            (delete TEMP_SILENT_VIDEO_FILE
               (delete narration_audio_path (files σ)))) /\
  (forall σ',
      main key σ = (Returned tt, σ') ->
      files σ' !! "narration.mp3" = None /\
      files σ' !! TEMP_SILENT_VIDEO_FILE = None /\
      files σ' !! TEMP_SUBTITLED_VIDEO_FILE = None /\
      is_Some (files σ' !! OUTPUT_VIDEO_FILE)).
Proof.
  split; [|split].
  - intros path. eexists. split; [apply remove_if_exists_spec|]. simpl.
    split; [apply lookup_delete_eq|]. split.
    + intros other Hne. apply lookup_delete_ne. congruence.
    + intros Hmiss. rewrite delete_id by exact Hmiss. destruct σ; reflexivity.
  - intros narration_audio_path. apply cleanup_spec.
  - intros σ' Hmain. unfold main in Hmain.
    apply bind_returned_inv in Hmain as (? & σ1 & _ & Hmain).
    apply bind_returned_inv in Hmain as (? & σ2 & _ & Hmain).
    apply bind_returned_inv in Hmain as (script & σ3 & _ & Hmain).
    apply bind_returned_inv in Hmain as (path & σ4 & Hnarr & Hmain).
    apply generate_narration_returns_path in Hnarr as ->.
    apply bind_returned_inv in Hmain as (narration & σ5 & _ & Hmain).
    apply bind_returned_inv in Hmain as (? & σ6 & _ & Hmain).
    apply bind_returned_inv in Hmain as (ws & σ7 & _ & Hmain).
    apply bind_returned_inv in Hmain as (? & σ8 & _ & Hmain).
    apply bind_returned_inv in Hmain as (? & σ9 & _ & Hmain).
    apply bind_returned_inv in Hmain as (clip & σ10 & _ & Hmain).
    apply bind_returned_inv in Hmain as (audio & σ11 & _ & Hmain).
    apply bind_returned_inv in Hmain as (? & σ12 & Hwrite & Hmain).
    apply bind_returned_inv in Hmain as (? & σ13 & Hprint & Hmain).
    apply bind_returned_inv in Hmain as (? & σ14 & Hclean & Hmain).
    destruct (cleanup_spec "narration.mp3" σ13) as (σc & Hc & Hfiles).
    rewrite Hc in Hclean. injection Hclean as _ <-.
    unfold print in Hmain, Hprint. unfold write_file in Hwrite.
    destruct (open_for_writing OUTPUT_VIDEO_FILE); [discriminate Hwrite|].
    injection Hmain as <-. injection Hprint as _ <-. injection Hwrite as _ <-.
    simpl in *. rewrite Hfiles.
    unfold TEMP_SILENT_VIDEO_FILE, TEMP_SUBTITLED_VIDEO_FILE, OUTPUT_VIDEO_FILE.
    repeat split.
    + rewrite lookup_delete_ne, lookup_delete_ne by discriminate.
      apply lookup_delete_eq.
    + rewrite lookup_delete_ne by discriminate. apply lookup_delete_eq.
    + apply lookup_delete_eq.
    + rewrite !lookup_delete_ne by discriminate.
      rewrite lookup_insert_eq. eauto.
Qed.

Lemma draw_subtitles_on_video_spec (input_video output_video : string)
    (ws : list word_timing) (σ : world frame) :
  draw_subtitles_on_video input_video output_video ws σ =
    (Returned tt,
     World
       (<[output_video :=
            Video (VIDEO_WIDTH, VIDEO_HEIGHT)
              match files σ !! input_video with
              | Some (Video resolution frames _) =>
                  writer_keeps resolution (render_loop ws 0 frames)
              | _ => []
              end None]> (files σ))
       (console σ ++ ["✏️ Drawing subtitles onto video using OpenCV...";
                      "   ✓ Subtitles drawn successfully."])
       (api_key σ) (tts_log σ)).
Proof.
  unfold draw_subtitles_on_video, bind, print, video_capture,
    video_writer_release.
  cbn [files console api_key tts_log].
  destruct (files σ !! input_video) as [[bytes|resolution frames audio]|];
    cbn [fst snd files console api_key tts_log];
    rewrite <- app_assoc; reflexivity.
Qed.

(** C8: the frames written by the renderer are a function of the input
    video and the word-timing sequence alone: two runs that read the same
    input video write the same output, and running the renderer again
    leaves the files as the first run left them. *)
Theorem C8_rendering_deterministic (input_video output_video : string)
    (ws : list word_timing) (σ1 σ2 : world frame) :
  let run := draw_subtitles_on_video input_video output_video ws in
  (files σ1 !! input_video = files σ2 !! input_video ->
   fst (run σ1) = Returned tt /\ fst (run σ2) = Returned tt /\
   files (snd (run σ1)) !! output_video = files (snd (run σ2)) !! output_video) /\
  (input_video <> output_video ->
   files (snd (run (snd (run σ1)))) = files (snd (run σ1))).
Proof.
  intros run. subst run. split.
  - intros Hsame. rewrite !draw_subtitles_on_video_spec. simpl.
    rewrite !lookup_insert_eq, Hsame. auto.
  - intros Hne. rewrite !draw_subtitles_on_video_spec. simpl.
    rewrite lookup_insert_ne by congruence.
    apply insert_insert_eq.
Qed.

(** ** Which steps can end the process *)




















(** The early exit of line 102: taken exactly on the literal the guard
    names, with status 1, before any file is read or any request made. *)
Lemma main_early_exit (σ : world frame) :
  main "YOUR_ELEVENLABS_API_KEY" σ =
    (Exited 1,
     World (files σ)
           (console σ ++
              ["--- 🎬 Starting YouTube Shorts Generator (OpenCV Edition) ---";
               "🛑 Set API Key"])
           (api_key σ) (tts_log σ)).
Proof.
  unfold main, bind, print, sys_exit_msg. simpl.
  rewrite <- app_assoc. reflexivity.
Qed.



End PipelineFacts.

(** ** The pipeline on the concrete collaborators *)



Lemma demo_run_returns :
  main "sk_live_demo" demo_world =
    (Returned tt, snd (main "sk_live_demo" demo_world)).
Proof. vm_compute. reflexivity. Defined.

Lemma C7_cleanup_witness :
  main "sk_live_demo" demo_world =
    (Returned tt, snd (main "sk_live_demo" demo_world)) /\
  files (snd (main "sk_live_demo" demo_world)) !! "narration.mp3" = None /\
  files (snd (main "sk_live_demo" demo_world)) !! TEMP_SILENT_VIDEO_FILE = None /\
  files (snd (main "sk_live_demo" demo_world)) !! TEMP_SUBTITLED_VIDEO_FILE = None /\
  is_Some (files (snd (main "sk_live_demo" demo_world)) !! OUTPUT_VIDEO_FILE).
Proof.
  split; [exact demo_run_returns|].
  exact (proj2 (proj2 (C7_cleanup "sk_live_demo" demo_world)) _
           demo_run_returns).
Defined.

(** The demo run end to end: the final file carries the four frames with
    the active word of each burnt in, and the narration as its audio. *)
Example demo_run_output :
  files (snd (main "sk_live_demo" demo_world)) !! OUTPUT_VIDEO_FILE =
    Some (Video (VIDEO_WIDTH, VIDEO_HEIGHT)
            [Canvas 0 [DrawnText "hello" (440, 985) SHADOW_COLOR SHADOW_THICKNESS;
                       DrawnText "hello" (440, 985) FONT_COLOR FONT_THICKNESS];
             Canvas 1 [DrawnText "hello" (440, 985) SHADOW_COLOR SHADOW_THICKNESS;
                       DrawnText "hello" (440, 985) FONT_COLOR FONT_THICKNESS];
             Canvas 2 [DrawnText "hello" (440, 985) SHADOW_COLOR SHADOW_THICKNESS;
                       DrawnText "hello" (440, 985) FONT_COLOR FONT_THICKNESS];
             Canvas 3 [DrawnText "world" (440, 985) SHADOW_COLOR SHADOW_THICKNESS;
                       DrawnText "world" (440, 985) FONT_COLOR FONT_THICKNESS]]
            (Some "mp3:hello world")).
Proof. vm_compute. reflexivity. Qed.

Lemma C8_rendering_deterministic_witness :
  let run := draw_subtitles_on_video TEMP_SILENT_VIDEO_FILE
               TEMP_SUBTITLED_VIDEO_FILE hello_world in
  files silent_world !! TEMP_SILENT_VIDEO_FILE =
    files noisy_world !! TEMP_SILENT_VIDEO_FILE /\
  TEMP_SILENT_VIDEO_FILE <> TEMP_SUBTITLED_VIDEO_FILE /\
  files (snd (run silent_world)) !! TEMP_SUBTITLED_VIDEO_FILE =
    files (snd (run noisy_world)) !! TEMP_SUBTITLED_VIDEO_FILE /\
  files (snd (run (snd (run silent_world)))) = files (snd (run silent_world)).
Proof.
  intros run.
  assert (Hsame : files silent_world !! TEMP_SILENT_VIDEO_FILE =
                  files noisy_world !! TEMP_SILENT_VIDEO_FILE)
    by (vm_compute; reflexivity).
  assert (Hne : TEMP_SILENT_VIDEO_FILE <> TEMP_SUBTITLED_VIDEO_FILE)
    by discriminate.
  destruct (C8_rendering_deterministic TEMP_SILENT_VIDEO_FILE
              TEMP_SUBTITLED_VIDEO_FILE hello_world silent_world noisy_world)
    as [Htwo Hagain].
  split; [exact Hsame|]. split; [exact Hne|].
  split; [exact (proj2 (proj2 (Htwo Hsame)))|exact (Hagain Hne)].
Defined.

(** C1: the configuration constant as shipped is not the literal that the
    guard of line 102 tests, so the early exit is not taken: the run reads
    the script, sends the request under the placeholder key and exits with
    status 1 only through the handler of the synthesis error. *)
Theorem C1_shipped_placeholder_passes_guard :
  api_key_guard ELEVENLABS_API_KEY = false /\
  main ELEVENLABS_API_KEY demo_world =
    (Exited 1,
     World (files demo_world)
           ["--- 🎬 Starting YouTube Shorts Generator (OpenCV Edition) ---";
            "🎙️ Generating narration...";
            "🛑 Error during narration generation: invalid_api_key"]
           (Some ELEVENLABS_API_KEY)
           [TtsRequest (Some ELEVENLABS_API_KEY) "hello world" VOICE_NAME
              "eleven_multilingual_v2"]).
Proof. split; vm_compute; reflexivity. Qed.

(** * Further properties of the scan and of the frame loop *)

Lemma active_word_some_inv (t : Q) (ws : list word_timing) (w : string) :
  active_word t ws = Some w ->
  exists pre r post, first_match t ws r pre post /\ word r = w.
Proof.
  induction ws as [|r0 ws IH]; simpl; intros Hsome; [discriminate Hsome|].
  destruct (in_interval t r0) eqn:Hr0.
  - injection Hsome as <-. exists [], r0, ws.
    apply in_interval_spec in Hr0 as [Hs He].
    split; [|reflexivity]. repeat split; auto.
    intros r' Hr'. apply elem_of_nil in Hr'. destruct Hr'.
  - destruct (IH Hsome) as (pre & r & post & (-> & Hpre & Hs & He) & Hw).
    exists (r0 :: pre), r, post. split; [|exact Hw].
    repeat split; auto.
    intros r' Hr'. apply elem_of_cons in Hr' as [->|Hr'].
    + apply in_interval_false. exact Hr0.
    + apply Hpre. exact Hr'.
Qed.

(** The scan is sound and complete: it returns nothing exactly when no
    record contains the timestamp, and a word it returns is the word of the
    earliest record that contains the timestamp. *)
Theorem active_word_characterisation (t : Q) (ws : list word_timing) :
  (active_word t ws = None <->
   forall r, r ∈ ws -> ~ ((start r <= t)%Q /\ (t < end_ r)%Q)) /\
  (forall w, active_word t ws = Some w ->
     exists pre r post, first_match t ws r pre post /\ word r = w).
Proof.
  split; [|intros w; apply active_word_some_inv].
  split; [|apply active_word_none].
  induction ws as [|r0 ws IH]; simpl; intros Hnone r Hr.
  - apply elem_of_nil in Hr. destruct Hr.
  - destruct (in_interval t r0) eqn:Hr0; [discriminate Hnone|].
    apply elem_of_cons in Hr as [->|Hr].
    + apply in_interval_false. exact Hr0.
    + apply IH; assumption.
Qed.

Lemma ordered_intervals_before (ws : list word_timing) (j k : nat)
    (a b : word_timing) :
  ordered_intervals ws -> ws !! j = Some a -> ws !! k = Some b ->
  (j < k)%nat -> (end_ a <= start b)%Q.
Proof.
  revert j k. induction ws as [|r ws IH]; intros j k Hord Hj Hk Hlt.
  - discriminate Hj.
  - destruct Hord as (_ & Hlater & Hrest).
    destruct k as [|k]; [lia|]. simpl in Hk.
    destruct j as [|j]; simpl in Hj.
    + injection Hj as ->. apply Hlater.
      apply list_elem_of_lookup. eauto.
    + apply (IH j k); auto. lia.
Qed.

(** On a sequence whose intervals are ordered and do not overlap, a record
    that contains the timestamp is the only one that does, so the scan
    returns its word wherever the record stands in the sequence. *)
Theorem ordered_intervals_scan (t : Q) (ws : list word_timing) (k : nat)
    (r : word_timing) :
  ordered_intervals ws ->
  ws !! k = Some r -> (start r <= t)%Q -> (t < end_ r)%Q ->
  sole_match t ws k r /\ active_word t ws = Some (word r).
Proof.
  intros Hord Hk Hs He.
  assert (Hsole : sole_match t ws k r).
  { repeat split; auto. intros j r' Hj Hs' He'.
    destruct (Nat.lt_trichotomy j k) as [Hlt|[Heq|Hgt]]; [|exact Heq|].
    - exfalso.
      pose proof (ordered_intervals_before _ _ _ _ _ Hord Hj Hk Hlt) as Hle.
      apply (Qlt_irrefl t).
      eapply Qlt_le_trans; [exact He'|]. eapply Qle_trans; eassumption.
    - exfalso.
      pose proof (ordered_intervals_before _ _ _ _ _ Hord Hk Hj Hgt) as Hle.
      apply (Qlt_irrefl t).
      eapply Qlt_le_trans; [exact He|]. eapply Qle_trans; eassumption. }
  split; [exact Hsole|].
  apply sole_match_first in Hsole.
  exact (active_word_first _ _ _ _ _ Hsole).
Qed.

Lemma hello_world_ordered : ordered_intervals hello_world.
Proof.
  simpl. repeat split; try (apply Qle_bool_iff; vm_compute; reflexivity).
  - intros r' Hr'. apply list_elem_of_singleton in Hr' as ->.
    apply Qle_bool_iff. vm_compute. reflexivity.
  - intros r' Hr'. apply elem_of_nil in Hr'. destruct Hr'.
Defined.

Lemma ordered_intervals_scan_witness :
  ordered_intervals hello_world /\
  hello_world !! 1%nat = Some (WordTiming "WORLD" 1 2) /\
  (1 <= current_time 47)%Q /\ (current_time 47 < 2)%Q /\
  active_word (current_time 47) hello_world = Some "WORLD".
Proof.
  assert (Hs : (1 <= current_time 47)%Q)
    by (apply Qle_bool_iff; vm_compute; reflexivity).
  assert (He : (current_time 47 < 2)%Q)
    by (apply Qlt_bool_iff; vm_compute; reflexivity).
  split; [exact hello_world_ordered|]. split; [reflexivity|].
  split; [exact Hs|]. split; [exact He|].
  exact (proj2 (ordered_intervals_scan (current_time 47) hello_world 1
                  (WordTiming "WORLD" 1 2) hello_world_ordered eq_refl Hs He)).
Defined.

Section LoopFacts.
Context {frame : Type} `{OpenCV frame}.

(** A frame is either written as read or written with the two passes of
    one word of the sequence whose interval contains its timestamp. *)
Theorem render_frame_cases (ws : list word_timing) (i : nat) (f : frame) :
  render_frame ws i f = f \/
  exists r, r ∈ ws /\ in_interval (current_time i) r = true /\
            word r <> "" /\
            render_frame ws i f = outline_then_fill (word r) f.
Proof.
  unfold render_frame.
  destruct (active_word (current_time i) ws) as [w|] eqn:Hscan;
    [|left; reflexivity].
  destruct (active_word_some_inv _ _ _ Hscan)
    as (pre & r & post & (-> & _ & Hs & He) & <-).
  simpl. destruct (truthy (word r)) eqn:Hw; [right|left; reflexivity].
  exists r. split; [|split; [|split]].
  - apply elem_of_app. right. left.
  - apply in_interval_spec. auto.
  - apply truthy_nonempty. exact Hw.
  - reflexivity.
Qed.

End LoopFacts.

(** * Further properties of the geometry *)

Section GeometryFacts.
Local Open Scope Z_scope.

(** The crop changes one axis only and stays inside the picture: a picture
    wider than the target ratio keeps its height and [h * 1080 / 1920]
    of its columns (rounded down), any other picture keeps its width and
    [w * 1920 / 1080] of its rows (rounded down). *)
Theorem cropped_size_spec (w h : Z) :
  0 < w -> 0 < h ->
  crop_size (w, h) (choose_crop w h) =
    (if VIDEO_WIDTH * h <? VIDEO_HEIGHT * w
     then (h * VIDEO_WIDTH / VIDEO_HEIGHT, h)
     else (w, w * VIDEO_HEIGHT / VIDEO_WIDTH)) /\
  fst (crop_size (w, h) (choose_crop w h)) <= w /\
  snd (crop_size (w, h) (choose_crop w h)) <= h.
Proof.
  intros Hw Hh. rewrite choose_crop_spec by lia.
  unfold VIDEO_WIDTH, VIDEO_HEIGHT.
  destruct (1080 * h <? 1920 * w) eqn:Hwide.
  - apply Z.ltb_lt in Hwide.
    assert (Hq : 0 <= h * 1080 / 1920 <= w).
    { split; [apply Z.div_pos; lia|apply Z.div_le_upper_bound; lia]. }
    rewrite crop_size_width, (Z.quot_div_nonneg (h * 1080) 1920) by lia.
    rewrite centred_slice_len by exact Hq. cbn [fst snd].
    split; [reflexivity|lia].
  - apply Z.ltb_ge in Hwide.
    assert (Hq : 0 <= w * 1920 / 1080 <= h).
    { split; [apply Z.div_pos; lia|apply Z.div_le_upper_bound; lia]. }
    rewrite crop_size_height, (Z.quot_div_nonneg (w * 1920) 1080) by lia.
    rewrite centred_slice_len by exact Hq. cbn [fst snd].
    split; [reflexivity|lia].
Qed.

Lemma cropped_size_spec_witness :
  0 < 1920 /\ 0 < 1080 /\
  crop_size (1920, 1080) (choose_crop 1920 1080) = (607, 1080).
Proof.
  assert (Hw : 0 < 1920) by lia. assert (Hh : 0 < 1080) by lia.
  split; [exact Hw|]. split; [exact Hh|].
  exact (proj1 (cropped_size_spec 1920 1080 Hw Hh)).
Defined.

Lemma silent_video_width_wide_witness :
  0 < 1280 /\ 0 < 720 /\ VIDEO_WIDTH * 720 < VIDEO_HEIGHT * 1280 /\
  fst (silent_video_size 1280 720) <= VIDEO_WIDTH /\
  (fst (silent_video_size 1280 720) = VIDEO_WIDTH <-> (16 | 720)).
Proof.
  assert (Hw : 0 < 1280) by lia. assert (Hh : 0 < 720) by lia.
  assert (Hwide : VIDEO_WIDTH * 720 < VIDEO_HEIGHT * 1280) by reflexivity.
  split; [exact Hw|]. split; [exact Hh|]. split; [exact Hwide|].
  exact (silent_video_width_wide 1280 720 Hw Hh Hwide).
Defined.

Lemma silent_video_width_tall_witness :
  0 < 1080 /\ 0 < 2400 /\ VIDEO_HEIGHT * 1080 <= VIDEO_WIDTH * 2400 /\
  VIDEO_WIDTH <= fst (silent_video_size 1080 2400) /\
  ((9 | 1080) -> fst (silent_video_size 1080 2400) = VIDEO_WIDTH).
Proof.
  assert (Hw : 0 < 1080) by lia. assert (Hh : 0 < 2400) by lia.
  assert (Htall : VIDEO_HEIGHT * 1080 <= VIDEO_WIDTH * 2400)
    by (intros Hgt; discriminate Hgt).
  split; [exact Hw|]. split; [exact Hh|]. split; [exact Htall|].
  exact (silent_video_width_tall 1080 2400 Hw Hh Htall).
Defined.

End GeometryFacts.

(** * Further properties of the pipeline *)

Section PipelineMore.
Context {frame : Type} `{OpenCV frame} `{Collaborators frame}.

Lemma respects_bind {A B : Type} (R : world frame -> world frame -> Prop)
    (m : M frame A) (k : A -> M frame B) :
  (forall a b c, R a b -> R b c -> R a c) ->
  respects R m ->
  (forall σ a σ1, m σ = (Returned a, σ1) -> respects R (k a)) ->
  respects R (bind m k).
Proof.
  intros Htrans Hm Hk σ o σ' Hrun. unfold bind in Hrun.
  destruct (m σ) as [[a|status|e] σ1] eqn:Hstep.
  - eapply Htrans; [exact (Hm _ _ _ Hstep)|].
    exact (Hk _ _ _ Hstep _ _ _ Hrun).
  - injection Hrun as _ <-. exact (Hm _ _ _ Hstep).
  - injection Hrun as _ <-. exact (Hm _ _ _ Hstep).
Qed.

Lemma respects_try_except {A : Type} (R : world frame -> world frame -> Prop)
    (body : M frame A) (handler : exn -> M frame A) :
  (forall a b c, R a b -> R b c -> R a c) ->
  respects R body -> (forall e, respects R (handler e)) ->
  respects R (try_except body handler).
Proof.
  intros Htrans Hbody Hhandler σ o σ' Hrun. unfold try_except in Hrun.
  destruct (body σ) as [[a|status|e] σ1] eqn:Hstep.
  - injection Hrun as <- <-. exact (Hbody _ _ _ Hstep).
  - injection Hrun as <- <-. exact (Hbody _ _ _ Hstep).
  - eapply Htrans; [exact (Hbody _ _ _ Hstep)|].
    exact (Hhandler _ _ _ _ Hrun).
Qed.

Lemma respects_weaken {A : Type} (R R' : world frame -> world frame -> Prop)
    (m : M frame A) :
  (forall σ σ', R σ σ' -> R' σ σ') -> respects R m -> respects R' m.
Proof. intros Himp Hm σ o σ' Hrun. apply Himp. exact (Hm _ _ _ Hrun). Qed.

Lemma read_only_trans (a b c : world frame) :
  read_only a b -> read_only b c -> read_only a c.
Proof. unfold read_only. intros [-> ->] [-> ->]. auto. Qed.

Lemma others_untouched_trans (a b c : world frame) :
  others_untouched a b -> others_untouched b c -> others_untouched a c.
Proof.
  unfold others_untouched. intros Hab Hbc p Hp.
  rewrite Hbc, Hab by exact Hp. reflexivity.
Qed.

Lemma nothing_removed_trans (a b c : world frame) :
  nothing_removed a b -> nothing_removed b c -> nothing_removed a c.
Proof. unfold nothing_removed. auto. Qed.

Lemma no_request_trans (a b c : world frame) :
  no_request a b -> no_request b c -> no_request a c.
Proof. unfold no_request. congruence. Qed.

Lemma writes_own_path_trans (a b c : world frame) :
  writes_own_path a b -> writes_own_path b c -> writes_own_path a c.
Proof.
  intros (H1 & H2 & H3) (H1' & H2' & H3'). repeat split.
  - eapply others_untouched_trans; eassumption.
  - eapply nothing_removed_trans; eassumption.
  - eapply no_request_trans; eassumption.
Qed.

Lemma read_only_writes_own_path (σ σ' : world frame) :
  read_only σ σ' -> writes_own_path σ σ'.
Proof.
  intros [Hf Hl]. repeat split.
  - intros p _. rewrite Hf. reflexivity.
  - intros p. rewrite Hf. auto.
  - exact Hl.
Qed.

Ltac read_only_prim :=
  let Hrun := fresh "Hrun" in
  intros ? ? ? Hrun;
  cbv beta delta [ret raise lift print read_data video_capture
    video_file_clip sys_exit sys_exit_msg os_path_exists] in Hrun;
  repeat case_match; simplify_eq; split; reflexivity.

Lemma read_only_ret {A : Type} (a : A) :
  respects read_only (ret (frame := frame) a).
Proof. read_only_prim. Qed.

Lemma read_only_raise {A : Type} (e : exn) :
  respects read_only (raise (frame := frame) (A := A) e).
Proof. read_only_prim. Qed.

Lemma read_only_lift {A : Type} (r : exn + A) :
  respects read_only (lift (frame := frame) r).
Proof. destruct r; read_only_prim. Qed.

Lemma read_only_print (msg : string) :
  respects read_only (print (frame := frame) msg).
Proof. read_only_prim. Qed.

Lemma read_only_sys_exit_msg {A : Type} (msg : string) :
  respects read_only (sys_exit_msg (frame := frame) (A := A) msg).
Proof. read_only_prim. Qed.

Lemma read_only_sys_exit {A : Type} (status : Z) :
  respects read_only (sys_exit (frame := frame) (A := A) status).
Proof. read_only_prim. Qed.

Lemma read_only_read_data (path : string) :
  respects read_only (read_data (frame := frame) path).
Proof. read_only_prim. Qed.

Lemma read_only_video_capture (path : string) :
  respects read_only (video_capture (frame := frame) path).
Proof. read_only_prim. Qed.

Lemma read_only_video_file_clip (path : string) :
  respects read_only (video_file_clip (frame := frame) path).
Proof. read_only_prim. Qed.

Ltac read_only_steps :=
  repeat first
    [ apply read_only_ret | apply read_only_raise | apply read_only_lift
    | apply read_only_print | apply read_only_read_data
    | apply read_only_video_capture | apply read_only_video_file_clip
    | apply read_only_sys_exit_msg | apply read_only_sys_exit
    | apply respects_bind; [exact read_only_trans| |intros ? ? ? _] ].

Lemma read_only_audio_file_clip (path : string) :
  respects read_only (audio_file_clip path).
Proof. unfold audio_file_clip. read_only_steps. Qed.

Lemma read_only_get_word_timestamps (audio_path : string) :
  respects read_only (get_word_timestamps audio_path).
Proof. unfold get_word_timestamps. read_only_steps. Qed.

Lemma writes_own_path_write_file (path : string) (c : content frame) :
  pipeline_path path -> respects writes_own_path (write_file path c).
Proof.
  intros Hpath σ o σ' Hrun. unfold write_file in Hrun.
  destruct (open_for_writing path); simplify_eq;
    [apply read_only_writes_own_path; split; reflexivity|].
  unfold writes_own_path, others_untouched, nothing_removed, no_request.
  cbn [files tts_log]. repeat split.
  - intros p Hp. apply lookup_insert_ne. intros ->. exact (Hp Hpath).
  - intros p Hsome. rewrite lookup_insert. case_decide; eauto.
Qed.

Lemma writes_own_path_video_writer_release (path : string)
    (frames : list frame) :
  pipeline_path path ->
  respects (frame := frame) writes_own_path (video_writer_release path frames).
Proof.
  intros Hpath σ o σ' Hrun. unfold video_writer_release in Hrun. simplify_eq.
  unfold writes_own_path, others_untouched, nothing_removed, no_request.
  cbn [files tts_log]. repeat split.
  - intros p Hp. apply lookup_insert_ne. intros ->. exact (Hp Hpath).
  - intros p Hsome. rewrite lookup_insert. case_decide; eauto.
Qed.

Ltac writes_own_path_steps :=
  repeat first
    [ apply writes_own_path_write_file; assumption
    | apply writes_own_path_video_writer_release; assumption
    | apply (respects_weaken read_only); [exact read_only_writes_own_path|];
      first [ apply read_only_ret | apply read_only_raise | apply read_only_lift
            | apply read_only_print | apply read_only_read_data
            | apply read_only_video_capture | apply read_only_video_file_clip
            | apply read_only_audio_file_clip
            | apply read_only_get_word_timestamps ]
    | apply respects_bind; [exact writes_own_path_trans| |intros ? ? ? _] ].

Lemma writes_own_path_create_silent_base_video (duration : Q)
    (background_path output_path : string) :
  pipeline_path output_path ->
  respects writes_own_path
    (create_silent_base_video duration background_path output_path).
Proof.
  intros Hpath. unfold create_silent_base_video. writes_own_path_steps.
  case_match; writes_own_path_steps.
Qed.

Lemma writes_own_path_draw_subtitles_on_video (input_video output_video : string)
    (ws : list word_timing) :
  pipeline_path output_video ->
  respects writes_own_path (draw_subtitles_on_video input_video output_video ws).
Proof.
  intros Hpath. unfold draw_subtitles_on_video. writes_own_path_steps.
Qed.


Lemma writes_own_path_others (σ σ' : world frame) :
  writes_own_path σ σ' -> others_untouched σ σ'.
Proof. intros (Ho & _ & _). exact Ho. Qed.

Lemma writes_own_path_nothing_removed (σ σ' : world frame) :
  writes_own_path σ σ' -> nothing_removed σ σ'.
Proof. intros (_ & Hn & _). exact Hn. Qed.

Lemma writes_own_path_no_request (σ σ' : world frame) :
  writes_own_path σ σ' -> no_request σ σ'.
Proof. intros (_ & _ & Hl). exact Hl. Qed.

(** What [generate_narration] does to the world, however it ends. *)
Lemma generate_narration_effect (key text output_path : string)
    (σ σ' : world frame) (o : outcome string) :
  generate_narration key text output_path σ = (o, σ') ->
  tts_log σ' =
    tts_log σ ++ [TtsRequest (Some key) text VOICE_NAME "eleven_multilingual_v2"] /\
  (files σ' = files σ \/
   exists audio, files σ' = <[output_path := Data audio]> (files σ)).
Proof.
  unfold generate_narration, bind, try_except, print, set_api_key,
    elevenlabs_generate, write_file, ret, sys_exit. cbn [files console api_key tts_log].
  destruct (generate (Some key) text VOICE_NAME "eleven_multilingual_v2")
    as [e|audio]; [intros Hrun; simplify_eq; cbn [files tts_log]; eauto|].
  destruct (open_for_writing output_path);
    cbn [files console api_key tts_log]; intros Hrun; simplify_eq;
    cbn [files tts_log]; eauto.
Qed.

Lemma generate_narration_others (key text output_path : string) :
  pipeline_path output_path ->
  respects others_untouched (generate_narration key text output_path).
Proof.
  intros Hpath σ o σ' Hrun p Hp.
  apply generate_narration_effect in Hrun as [_ [->|[audio ->]]];
    [reflexivity|].
  apply lookup_insert_ne. intros ->. exact (Hp Hpath).
Qed.

Lemma generate_narration_nothing_removed (key text output_path : string) :
  respects nothing_removed (generate_narration key text output_path).
Proof.
  intros σ o σ' Hrun p Hsome.
  apply generate_narration_effect in Hrun as [_ [->|[audio ->]]];
    [exact Hsome|].
  rewrite lookup_insert. case_decide; eauto.
Qed.

Lemma cleanup_world (narration_audio_path : string) (σ : world frame) :
  cleanup narration_audio_path σ =
    (Returned tt,
     World (delete TEMP_SUBTITLED_VIDEO_FILE
              (delete TEMP_SILENT_VIDEO_FILE
                 (delete narration_audio_path (files σ))))
           (console σ ++ ["🧹 Cleaning up temporary files..."])
           (api_key σ) (tts_log σ)).
Proof.
  unfold cleanup.
  unfold bind at 1. unfold print at 1.
  unfold bind at 1. rewrite remove_if_exists_spec.
  unfold bind at 1. rewrite remove_if_exists_spec.
  rewrite remove_if_exists_spec. reflexivity.
Qed.

Lemma cleanup_others (narration_audio_path : string) :
  pipeline_path narration_audio_path ->
  respects (frame := frame) others_untouched (cleanup narration_audio_path).
Proof.
  intros Hpath σ o σ' Hrun p Hp. rewrite cleanup_world in Hrun.
  simplify_eq. cbn [files].
  rewrite !lookup_delete_ne; [reflexivity| | |].
  - intros ->. exact (Hp Hpath).
  - intros <-. apply Hp. unfold pipeline_path. auto.
  - intros <-. apply Hp. unfold pipeline_path. auto.
Qed.

Lemma cleanup_no_request (narration_audio_path : string) :
  respects (frame := frame) no_request (cleanup narration_audio_path).
Proof.
  intros σ o σ' Hrun. rewrite cleanup_world in Hrun. simplify_eq. reflexivity.
Qed.

Lemma pipeline_path_narration : pipeline_path "narration.mp3".
Proof. unfold pipeline_path. auto. Qed.

Lemma pipeline_path_silent : pipeline_path TEMP_SILENT_VIDEO_FILE.
Proof. unfold pipeline_path. auto. Qed.

Lemma pipeline_path_subtitled : pipeline_path TEMP_SUBTITLED_VIDEO_FILE.
Proof. unfold pipeline_path. auto. Qed.

Lemma pipeline_path_output : pipeline_path OUTPUT_VIDEO_FILE.
Proof. unfold pipeline_path. auto. Qed.

(** A step of [main] that is read-only or writes its own path satisfies
    any relation that [writes_own_path] implies. *)
Ltac pipeline_leaf R_of_wop :=
  first
    [ apply (respects_weaken writes_own_path); [exact R_of_wop|];
      first [ apply writes_own_path_create_silent_base_video;
              exact pipeline_path_silent
            | apply writes_own_path_draw_subtitles_on_video;
              exact pipeline_path_subtitled
            | apply writes_own_path_write_file; exact pipeline_path_output ]
    | apply (respects_weaken read_only);
      [intros ? ? ?; apply R_of_wop; apply read_only_writes_own_path;
       assumption|];
      first [ apply read_only_ret | apply read_only_print
            | apply read_only_read_data | apply read_only_video_file_clip
            | apply read_only_audio_file_clip
            | apply read_only_get_word_timestamps
            | apply read_only_sys_exit_msg ] ].

(** However [main] ends, a file that is not one of the four paths of the
    pipeline (narration, silent video, subtitled video, final video) is as
    it was before the run: the script, the background picture and any
    unrelated file are never modified. *)
Theorem main_other_files_untouched (key : string) (σ σ' : world frame)
    (o : outcome unit) (p : string) :
  main key σ = (o, σ') ->
  p <> "narration.mp3" -> p <> TEMP_SILENT_VIDEO_FILE ->
  p <> TEMP_SUBTITLED_VIDEO_FILE -> p <> OUTPUT_VIDEO_FILE ->
  files σ' !! p = files σ !! p.
Proof.
  intros Hrun Hp1 Hp2 Hp3 Hp4.
  assert (Hmain : respects others_untouched (main key)).
  { unfold main.
    apply respects_bind; [exact others_untouched_trans| |intros ? ? ? _].
    { pipeline_leaf writes_own_path_others. }
    apply respects_bind; [exact others_untouched_trans| |intros ? ? ? _].
    { case_match; pipeline_leaf writes_own_path_others. }
    apply respects_bind; [exact others_untouched_trans| |intros ? ? ? _].
    { pipeline_leaf writes_own_path_others. }
    apply respects_bind; [exact others_untouched_trans| |intros ? path ? Hnarr].
    { apply generate_narration_others. exact pipeline_path_narration. }
    apply generate_narration_returns_path in Hnarr as ->.
    repeat first
      [ pipeline_leaf writes_own_path_others
      | apply cleanup_others; exact pipeline_path_narration
      | apply respects_bind; [exact others_untouched_trans| |intros ? ? ? _] ]. }
  apply (Hmain _ _ _ Hrun).
  unfold pipeline_path. intros [?|[?|[?|?]]]; contradiction.
Qed.


Lemma respects_on_failure_bind {A B : Type}
    (R : world frame -> world frame -> Prop)
    (m : M frame A) (k : A -> M frame B) :
  (forall a b c, R a b -> R b c -> R a c) ->
  respects R m ->
  (forall σ a σ1, m σ = (Returned a, σ1) -> respects_on_failure R (k a)) ->
  respects_on_failure R (bind m k).
Proof.
  intros Htrans Hm Hk σ o σ' Hrun Hfail. unfold bind in Hrun.
  destruct (m σ) as [[a|status|e] σ1] eqn:Hstep.
  - eapply Htrans; [exact (Hm _ _ _ Hstep)|].
    exact (Hk _ _ _ Hstep _ _ _ Hrun Hfail).
  - injection Hrun as _ <-. exact (Hm _ _ _ Hstep).
  - injection Hrun as _ <-. exact (Hm _ _ _ Hstep).
Qed.

(** When [main] does not return, no file has been removed: whatever the
    run created before it failed is still there. *)
Theorem main_failure_removes_nothing (key : string) (σ σ' : world frame)
    (o : outcome unit) (p : string) :
  main key σ = (o, σ') -> o <> Returned tt ->
  is_Some (files σ !! p) -> is_Some (files σ' !! p).
Proof.
  intros Hrun Hfail.
  assert (Hmain : respects_on_failure nothing_removed (main key)).
  { unfold main.
    repeat first
      [ apply respects_on_failure_bind;
        [ exact nothing_removed_trans
        | first [ pipeline_leaf writes_own_path_nothing_removed
                | case_match; pipeline_leaf writes_own_path_nothing_removed
                | apply generate_narration_nothing_removed ]
        | intros ? ? ? _ ] ].
    intros σa oa σb Hrun0 Hfail0. exfalso.
    unfold bind in Hrun0. rewrite cleanup_world in Hrun0.
    unfold print in Hrun0. injection Hrun0 as <- _. exact (Hfail0 tt eq_refl). }
  apply (Hmain _ _ _ Hrun). intros []. exact Hfail.
Qed.

Lemma bind_inv {A B : Type} (m : M frame A) (k : A -> M frame B)
    (σ σ' : world frame) (o : outcome B) :
  bind m k σ = (o, σ') ->
  (exists a σ1, m σ = (Returned a, σ1) /\ k a σ1 = (o, σ')) \/
  (exists o1, m σ = (o1, σ') /\ forall a, o1 <> Returned a).
Proof.
  unfold bind. destruct (m σ) as [[a|status|e] σ1]; intros Hrun.
  - left. eauto.
  - right. injection Hrun as _ <-. eexists. split; [reflexivity|discriminate].
  - right. injection Hrun as _ <-. eexists. split; [reflexivity|discriminate].
Qed.

(** A run of [main] sends at most one request to the text-to-speech
    service, and that request carries the text of the script under the
    configured key: nothing is retried and no later step calls the
    service. *)
Theorem main_at_most_one_request (key : string) (σ σ' : world frame)
    (o : outcome unit) :
  main key σ = (o, σ') ->
  tts_log σ' = tts_log σ \/
  exists text,
    files σ !! INPUT_TEXT_FILE = Some (Data text) /\
    tts_log σ' =
      tts_log σ ++ [TtsRequest (Some key) text VOICE_NAME "eleven_multilingual_v2"].
Proof.
  unfold main. intros Hrun.
  apply bind_inv in Hrun as [(? & σ1 & Hbanner & Hrun)|(o1 & Hbanner & _)];
    [|left; exact (proj2 (read_only_print _ _ _ _ Hbanner))].
  apply read_only_print in Hbanner as [Hf1 Hl1].
  apply bind_inv in Hrun as [(? & σ2 & Hguard & Hrun)|(o2 & Hguard & _)].
  2:{ left. rewrite <- Hl1.
      destruct (api_key_guard key).
      - exact (proj2 (read_only_sys_exit_msg _ _ _ _ Hguard)).
      - exact (proj2 (read_only_ret _ _ _ _ Hguard)). }
  assert (Hg : read_only σ1 σ2).
  { destruct (api_key_guard key).
    - exact (read_only_sys_exit_msg _ _ _ _ Hguard).
    - exact (read_only_ret _ _ _ _ Hguard). }
  destruct Hg as [Hf2 Hl2].
  apply bind_inv in Hrun as [(text & σ3 & Hread & Hrun)|(o3 & Hread & _)].
  2:{ left. rewrite (proj2 (read_only_read_data _ _ _ _ Hread)). congruence. }
  assert (Hscript : files σ !! INPUT_TEXT_FILE = Some (Data text)).
  { rewrite <- Hf1, <- Hf2. unfold read_data in Hread.
    destruct (files σ2 !! INPUT_TEXT_FILE) as [[bytes|frames audio]|];
      simplify_eq. reflexivity. }
  apply read_only_read_data in Hread as [Hf3 Hl3].
  right. exists text. split; [exact Hscript|].
  apply bind_inv in Hrun as [(path & σ4 & Hnarr & Hrun)|(o4 & Hnarr & _)].
  2:{ apply generate_narration_effect in Hnarr as [-> _]. congruence. }
  pose proof (generate_narration_effect _ _ _ _ _ _ Hnarr) as [Hl4 _].
  assert (Hrest : no_request σ4 σ').
  { revert Hrun. generalize σ4 o σ'. 
    change (respects (frame := frame) no_request
      (bind (audio_file_clip path) (fun narration =>
       bind (create_silent_base_video (snd narration) INPUT_BACKGROUND_FILE
               TEMP_SILENT_VIDEO_FILE) (fun _ =>
       bind (get_word_timestamps path) (fun word_timestamps =>
       bind (draw_subtitles_on_video TEMP_SILENT_VIDEO_FILE
               TEMP_SUBTITLED_VIDEO_FILE word_timestamps) (fun _ =>
       bind (print "🔊 Combining final video and audio...") (fun _ =>
       bind (video_file_clip TEMP_SUBTITLED_VIDEO_FILE) (fun subtitled_clip =>
       bind (audio_file_clip path) (fun original_audio =>
       bind (write_file OUTPUT_VIDEO_FILE
               (Video (fst subtitled_clip) (snd subtitled_clip)
                  (Some (fst original_audio)))) (fun _ =>
       bind (print "   ✓ Final video and audio combined successfully.") (fun _ =>
       bind (cleanup path) (fun _ =>
       print ("
--- ✅ VICTORY AT LAST! Your video is ready: " ++ OUTPUT_VIDEO_FILE ++ " ---")%string
      )))))))))))).
    repeat first
      [ pipeline_leaf writes_own_path_no_request
      | apply cleanup_no_request
      | apply respects_bind; [exact no_request_trans| |intros ? ? ? _] ]. }
  unfold no_request in Hrest. congruence.
Qed.














Lemma flat_map_times (g : string -> string) (segments : list (list word_timing)) :
  (fun r => (start r, end_ r)) <$>
    flat_map (map (fun w => WordTiming (g (word w)) (start w) (end_ w))) segments
  = (fun r => (start r, end_ r)) <$> concat segments.
Proof.
  induction segments as [|s segments IH]; simpl; [reflexivity|].
  rewrite !fmap_app, IH. f_equal.
  induction s as [|r s IHs]; simpl; [reflexivity|f_equal; exact IHs].
Qed.

Lemma flat_map_words (g : string -> string) (segments : list (list word_timing)) :
  word <$>
    flat_map (map (fun w => WordTiming (g (word w)) (start w) (end_ w))) segments
  = (fun r => g (word r)) <$> concat segments.
Proof.
  induction segments as [|s segments IH]; simpl; [reflexivity|].
  rewrite !fmap_app, IH. f_equal.
  induction s as [|r s IHs]; simpl; [reflexivity|f_equal; exact IHs].
Qed.

(** The words returned by [get_word_timestamps] are the words of the
    transcription, segment after segment: none is dropped or reordered,
    the start and end times are passed on unchanged and only the text is
    normalised; the files are not changed. *)
Theorem get_word_timestamps_result (audio_path : string)
    (ws : list word_timing) (σ σ' : world frame) :
  get_word_timestamps audio_path σ = (Returned ws, σ') ->
  files σ' = files σ /\
  exists audio segments,
    files σ !! audio_path = Some (Data audio) /\
    transcribe audio = inr segments /\
    length ws = length (concat segments) /\
    (fun r => (start r, end_ r)) <$> ws =
      (fun r => (start r, end_ r)) <$> concat segments /\
    word <$> ws = (fun r => strip_upper (word r)) <$> concat segments.
Proof.
  unfold get_word_timestamps, bind, print, read_data, lift, raise, ret.
  cbn [files console api_key tts_log]. intros Hrun.
  destruct (files σ !! audio_path) as [[audio|frames a]|] eqn:Hlook;
    try discriminate Hrun.
  destruct (transcribe audio) as [e|segments] eqn:Hseg; try discriminate Hrun.
  injection Hrun as <- <-. cbn [files]. split; [reflexivity|].
  exists audio, segments. split; [reflexivity|]. split; [exact Hseg|].
  pose proof (flat_map_times strip_upper segments) as Htimes.
  split; [|split; [exact Htimes|apply flat_map_words]].
  apply (f_equal length) in Htimes. rewrite !length_fmap in Htimes.
  exact Htimes.
Qed.

End PipelineMore.

(** ** The further properties on concrete runs *)



Lemma main_other_files_untouched_witness :
  main "sk_live_demo" demo_world =
    (Returned tt, snd (main "sk_live_demo" demo_world)) /\
  INPUT_TEXT_FILE <> "narration.mp3" /\
  INPUT_TEXT_FILE <> TEMP_SILENT_VIDEO_FILE /\
  INPUT_TEXT_FILE <> TEMP_SUBTITLED_VIDEO_FILE /\
  INPUT_TEXT_FILE <> OUTPUT_VIDEO_FILE /\
  files (snd (main "sk_live_demo" demo_world)) !! INPUT_TEXT_FILE =
    files demo_world !! INPUT_TEXT_FILE.
Proof.
  assert (H1 : INPUT_TEXT_FILE <> "narration.mp3") by discriminate.
  assert (H2 : INPUT_TEXT_FILE <> TEMP_SILENT_VIDEO_FILE) by discriminate.
  assert (H3 : INPUT_TEXT_FILE <> TEMP_SUBTITLED_VIDEO_FILE) by discriminate.
  assert (H4 : INPUT_TEXT_FILE <> OUTPUT_VIDEO_FILE) by discriminate.
  split; [exact demo_run_returns|]. repeat (split; [assumption|]).
  exact (main_other_files_untouched "sk_live_demo" demo_world _ _
           INPUT_TEXT_FILE demo_run_returns H1 H2 H3 H4).
Defined.

Lemma mute_run_raises :
  @main canvas canvas_cv mute_collaborators "sk_live_demo" demo_world =
    (Raised "model not available",
     snd (@main canvas canvas_cv mute_collaborators "sk_live_demo" demo_world)).
Proof. vm_compute. reflexivity. Defined.

(** A run that fails at the transcription leaves the narration and the
    silent video behind. *)
Example mute_run_leaves_temporaries :
  let σ' :=
    snd (@main canvas canvas_cv mute_collaborators "sk_live_demo" demo_world) in
  files σ' !! "narration.mp3" = Some (Data "mp3:hello world") /\
  files σ' !! TEMP_SILENT_VIDEO_FILE = Some (Video (VIDEO_WIDTH, VIDEO_HEIGHT) demo_frames None) /\
  files σ' !! OUTPUT_VIDEO_FILE = None.
Proof. vm_compute. auto. Qed.

Lemma main_failure_removes_nothing_witness :
  @main canvas canvas_cv mute_collaborators "sk_live_demo" demo_world =
    (Raised "model not available",
     snd (@main canvas canvas_cv mute_collaborators "sk_live_demo" demo_world)) /\
  Raised "model not available" <> Returned tt /\
  is_Some (files demo_world !! INPUT_BACKGROUND_FILE) /\
  is_Some
    (files (snd (@main canvas canvas_cv mute_collaborators "sk_live_demo"
                   demo_world)) !! INPUT_BACKGROUND_FILE).
Proof.
  assert (Hfail : @Raised unit "model not available" <> Returned tt)
    by discriminate.
  assert (Hsome : is_Some (files demo_world !! INPUT_BACKGROUND_FILE))
    by (exists (Data "jpeg"); vm_compute; reflexivity).
  split; [exact mute_run_raises|]. split; [exact Hfail|].
  split; [exact Hsome|].
  exact (main_failure_removes_nothing (H0 := mute_collaborators)
           "sk_live_demo" demo_world _ _ INPUT_BACKGROUND_FILE
           mute_run_raises Hfail Hsome).
Defined.

Lemma main_at_most_one_request_witness :
  main "sk_live_demo" demo_world =
    (Returned tt, snd (main "sk_live_demo" demo_world)) /\
  (tts_log (snd (main "sk_live_demo" demo_world)) = tts_log demo_world \/
   exists text,
     files demo_world !! INPUT_TEXT_FILE = Some (Data text) /\
     tts_log (snd (main "sk_live_demo" demo_world)) =
       tts_log demo_world ++
         [TtsRequest (Some "sk_live_demo") text VOICE_NAME
            "eleven_multilingual_v2"]).
Proof.
  split; [exact demo_run_returns|].
  exact (main_at_most_one_request "sk_live_demo" demo_world _ _
           demo_run_returns).
Defined.



Lemma narrated_run_words :
  get_word_timestamps "narration.mp3"
    (snd (generate_narration "sk_live_demo" "hello world" "narration.mp3"
            demo_world)) =
    (Returned [WordTiming "hello" 0 (1 # 8); WordTiming "world" (1 # 8) 2],
     snd (get_word_timestamps "narration.mp3"
            (snd (generate_narration "sk_live_demo" "hello world"
                    "narration.mp3" demo_world)))).
Proof. vm_compute. reflexivity. Defined.

Lemma get_word_timestamps_result_witness :
  get_word_timestamps "narration.mp3"
    (snd (generate_narration "sk_live_demo" "hello world" "narration.mp3"
            demo_world)) =
    (Returned [WordTiming "hello" 0 (1 # 8); WordTiming "world" (1 # 8) 2],
     snd (get_word_timestamps "narration.mp3"
            (snd (generate_narration "sk_live_demo" "hello world"
                    "narration.mp3" demo_world)))) /\
  files (snd (get_word_timestamps "narration.mp3"
                (snd (generate_narration "sk_live_demo" "hello world"
                        "narration.mp3" demo_world)))) =
    files (snd (generate_narration "sk_live_demo" "hello world" "narration.mp3"
                  demo_world)).
Proof.
  split; [exact narrated_run_words|].
  exact (proj1 (get_word_timestamps_result _ _ _ _ narrated_run_words)).
Defined.

(** * Placement of the text *)

Section PlacementFacts.
Context {frame : Type} `{OpenCV frame}.
Local Open Scope Z_scope.

(** The origin centres the text box of the measured size: the margins left
    and right of the box differ by at most one pixel, and so do the margins
    above and below it (the origin is the bottom-left corner of the text).
    A text wider than the frame gets a negative abscissa. *)
Theorem text_origin_centred (text : string) :
  let '((tw, th), _) := getTextSize text FONT FONT_SIZE FONT_THICKNESS in
  let '(x, y) := text_origin text in
  0 <= (VIDEO_WIDTH - (x + tw)) - x <= 1 /\
  0 <= (VIDEO_HEIGHT - y) - (y - th) <= 1 /\
  (VIDEO_WIDTH < tw -> x < 0).
Proof.
  unfold text_origin.
  destruct (getTextSize text FONT FONT_SIZE FONT_THICKNESS) as [[tw th] b].
  cbn [fst snd].
  pose proof (Z.div_mod (VIDEO_WIDTH - tw) 2 ltac:(lia)) as Hx.
  pose proof (Z.mod_pos_bound (VIDEO_WIDTH - tw) 2 ltac:(lia)) as Hxr.
  pose proof (Z.div_mod (VIDEO_HEIGHT + th) 2 ltac:(lia)) as Hy.
  pose proof (Z.mod_pos_bound (VIDEO_HEIGHT + th) 2 ltac:(lia)) as Hyr.
  repeat split; try lia.
Qed.

End PlacementFacts.

Example text_origin_canvas :
  text_origin (H := canvas_cv) "HELLO" = (440, 985)%Z.
Proof. reflexivity. Qed.

